(** * Password Security Lab: the strength analyzer of [password_analyzer.py]

    A shallow embedding of the class [PasswordAnalyzer]: the character-set
    classifier, the entropy estimate, the strength score and level, the
    crack-time projection and the suggestion generator, followed by the
    properties the specification states about them.

    Conventions of the embedding.
    - A Python [str] is a list of Unicode code points ([N]); its length is
      the number of code points.
    - What Python does on code points above 127 ([str.lower], the regex
      class [\d], [str.isalpha]) comes from the Unicode character database.
      The database is a parameter ([unicode_db]) that is consulted only for
      text outside ASCII; on ASCII text every function below is fully
      concrete.
    - Python numbers that are [float]s in the source are the exact rationals
      ([Q]) they stand for.  Every score is a multiple of 0.5 of magnitude at
      most 200, hence exact in binary64; for the crack times rounding is
      monotone and is left out.  The one place where binary64 changes control
      flow, the [OverflowError] of an [int / int] division whose quotient is
      out of range, is modelled exactly.
    - [math.log2] is the real logarithm; tests [entropy >= k] are decided on
      integers and proved to agree with the real-valued entropy.  Apart from
      the exact hits of the alphabet of 32 symbols, whose logarithm is 5, no
      entropy comes within 0.09 bit of one of the four thresholds, so the
      rounding of [log2] cannot change a test.
    - A request body of [api.py] is what [request.get_json()] makes of it: a
      parsed JSON value of any type ([json]) or an exception.  The random
      draws and the shuffle are parameters; time and memory are unbounded. *)

From Stdlib Require Import ZArith NArith QArith Qminmax Qabs Qround Bool List Lia Lra.
From Stdlib Require Import Ascii String Decimal DecimalString.
From Stdlib Require Import Reals Rpower.
Import ListNotations.

Local Open Scope Z_scope.

(** ** Python strings *)

Definition codepoint := N.
Definition str := list codepoint.

(** An ASCII literal as a Python string. *)
Definition py (s : string) : str := map N_of_ascii (list_ascii_of_string s).

Definition str_eqb (a b : str) : bool :=
  if list_eq_dec N.eq_dec a b then true else false.

Definition in_range (lo hi c : codepoint) : bool :=
  (N.leb lo c && N.leb c hi)%bool.

Arguments in_range (lo hi c)%_N.

Definition is_ascii (c : codepoint) : bool := N.ltb c 128.

(** The part of the Unicode character database the analyzer reaches through
    [str.lower], [\d] and [str.isalpha]. *)
Record unicode_db : Type := {
  uni_lower : str -> str;            (* str.lower on text outside ASCII *)
  uni_isdigit : codepoint -> bool;   (* category Nd, above 127 *)
  uni_isalpha : codepoint -> bool    (* alphabetic, above 127 *)
}.

(** A database for pure-ASCII use: nothing above 127 has case, is a digit or
    is a letter. *)
Definition ascii_db : unicode_db :=
  {| uni_lower := fun s => s;
     uni_isdigit := fun _ => false;
     uni_isalpha := fun _ => false |}.

Definition ascii_lower_char (c : codepoint) : codepoint :=
  if in_range 65 90 c then (c + 32)%N else c.

(** ** Regular expressions used by the analyzer *)

(** [re.search] of a one-character class. *)
Definition search_class (cls : codepoint -> bool) (s : str) : bool :=
  existsb cls s.

Fixpoint starts_with (pat s : str) : bool :=
  match pat, s with
  | [], _ => true
  | _ :: _, [] => false
  | a :: pat', b :: s' => (N.eqb a b && starts_with pat' s')%bool
  end.

(** [re.search] of a literal. *)
Fixpoint search_literal (pat s : str) : bool :=
  (starts_with pat s ||
   match s with
   | [] => false
   | _ :: s' => search_literal pat s'
   end)%bool.

(** [re.search] of an alternation [(p1|p2|...)] of literals. *)
Definition search_any (alts : list str) (s : str) : bool :=
  existsb (fun pat => search_literal pat s) alts.

(** [re.search] of the pattern [(.)\1{2,}]: some character other than a
    newline (the dot does not match code point 10) three times in a row. *)
Fixpoint search_repeat3 (s : str) : bool :=
  match s with
  | a :: ((b :: c :: _) as t) =>
      (negb (N.eqb a 10) && N.eqb a b && N.eqb b c || search_repeat3 t)%bool
  | _ => false
  end.

(** The bracket class of the fourth regex of [_identify_char_sets], written
    as code points in the order of the source: the 32 punctuation characters
    of ASCII. *)
Definition SPECIAL_CHARS : str :=
  [33; 64; 35; 36; 37; 94; 38; 42; 40; 41; 95; 43; 45; 61; 91; 93; 123; 125;
   59; 58; 39; 34; 44; 46; 60; 62; 63; 47; 92; 124; 96; 126]%N.

Definition is_special (c : codepoint) : bool :=
  existsb (N.eqb c) SPECIAL_CHARS.

(** ** Static tables *)

Definition COMMON_PASSWORDS : list str :=
  map py
    ["password"; "123456"; "12345678"; "qwerty"; "abc123"; "monkey";
     "letmein"; "trustno1"; "dragon"; "baseball"; "iloveyou"; "master";
     "sunshine"; "ashley"; "bailey"; "shadow"; "superman"; "qazwsx"]%string.

Definition ATTACK_SPEEDS : list (string * Q) :=
  [("plaintext", 1e15); ("md5", 1.8e11); ("sha256", 6.5e10);
   ("bcrypt", 8.5e4); ("argon2", 1e3)]%string%Q.

Fixpoint dict_get {V : Type} (k : string) (d : list (string * V)) : option V :=
  match d with
  | [] => None
  | (k', v) :: d' => if String.eqb k k' then Some v else dict_get k d'
  end.

Record char_sets_t : Type := {
  lowercase : bool;
  uppercase : bool;
  digits : bool;
  special : bool
}.

Section Analyzer.

Variable U : unicode_db.

Definition lower (s : str) : str :=
  if forallb is_ascii s then map ascii_lower_char s else uni_lower U s.

Definition is_digit (c : codepoint) : bool :=
  if is_ascii c then in_range 48 57 c else uni_isdigit U c.

Definition is_alpha (c : codepoint) : bool :=
  if is_ascii c then (in_range 65 90 c || in_range 97 122 c)%bool
  else uni_isalpha U c.

(** [str.isalpha]: non-empty and every character alphabetic. *)
Definition isalpha (s : str) : bool :=
  (negb (Nat.eqb (List.length s) 0) && forallb is_alpha s)%bool.

Definition is_common (password : str) : bool :=
  existsb (str_eqb (lower password)) COMMON_PASSWORDS.

Definition _identify_char_sets (password : str) : char_sets_t :=
  {| lowercase := search_class (in_range 97 122) password;
     uppercase := search_class (in_range 65 90) password;
     digits := search_class is_digit password;
     special := search_class is_special password |}.

Definition char_type_count (cs : char_sets_t) : Z :=
  Z.b2z (lowercase cs) + Z.b2z (uppercase cs) + Z.b2z (digits cs)
  + Z.b2z (special cs).

(** The alphabet size both [_calculate_entropy] and [estimate_crack_time]
    accumulate, before the fallback of the latter. *)
Definition charset_size (cs : char_sets_t) : Z :=
  let charset_size := 0 in
  let charset_size :=
    if lowercase cs then charset_size + 26 else charset_size in
  let charset_size :=
    if uppercase cs then charset_size + 26 else charset_size in
  let charset_size :=
    if digits cs then charset_size + 10 else charset_size in
  let charset_size :=
    if special cs then charset_size + 32 else charset_size in
  charset_size.

(** ** Entropy *)

Definition log2 (x : R) : R := (ln x / ln 2)%R.

Definition _calculate_entropy (password : str) : R :=
  let charset_size := charset_size (_identify_char_sets password) in
  if charset_size =? 0 then 0%R
  else (INR (List.length password) * log2 (IZR charset_size))%R.

(** The test [self.entropy >= k] for an integer [k], decided without
    logarithms: [length * log2 size >= k] exactly when [size ^ length >= 2 ^ k]
    (see [entropy_ge_spec]). *)
Definition entropy_ge (password : str) (k : Z) : bool :=
  let charset_size := charset_size (_identify_char_sets password) in
  if charset_size =? 0 then k <=? 0
  else 2 ^ k <=? charset_size ^ Z.of_nat (List.length password).

(** ** Pattern tests *)

Definition ALPHA_RUNS : list str :=
  map py
    ["abc"; "bcd"; "cde"; "def"; "efg"; "fgh"; "ghi"; "hij"; "ijk"; "jkl";
     "klm"; "lmn"; "mno"; "nop"; "opq"; "pqr"; "qrs"; "rst"; "stu"; "tuv";
     "uvw"; "vwx"; "wxy"; "xyz"]%string.

Definition DIGIT_RUNS : list str :=
  map py ["012"; "123"; "234"; "345"; "456"; "567"; "678"; "789"]%string.

Definition KEYBOARD_RUNS : list str :=
  map py ["qwert"; "asdf"; "zxcv"]%string.

(** The four regexes of [patterns], in order. *)
Definition patterns : list (str -> bool) :=
  [search_repeat3; search_any ALPHA_RUNS; search_any DIGIT_RUNS;
   search_any KEYBOARD_RUNS].

Definition _has_simple_patterns (password : str) : bool :=
  existsb (fun pattern => pattern (lower password)) patterns.

Definition _has_repeated_chars (password : str) : bool :=
  search_repeat3 password.

(** ** Strength score *)

Local Open Scope Q_scope.

(** Steps 1 to 3: length, diversity and entropy points. *)
Definition score_components (password : str) : Q :=
  let length := List.length password in
  let score := 0 in
  let score :=
    if (16 <=? length)%nat then score + 35
    else if (12 <=? length)%nat then score + 25
    else if (8 <=? length)%nat then score + 15
    else if (6 <=? length)%nat then score + 5
    else score in
  let char_type_count := char_type_count (_identify_char_sets password) in
  let score := score + inject_Z char_type_count * 7.5 in
  let score :=
    if entropy_ge password 80 then score + 20
    else if entropy_ge password 60 then score + 15
    else if entropy_ge password 40 then score + 10
    else if entropy_ge password 28 then score + 5
    else score in
  score.

(** Steps 4 and 5: the two penalties, each clamped at 0 on the spot. *)
Definition score_after_common (password : str) : Q :=
  let score := score_components password in
  if is_common password then Qmax 0 (score - 50) else score.

Definition score_after_patterns (password : str) : Q :=
  let score := score_after_common password in
  if _has_simple_patterns password then Qmax 0 (score - 20) else score.

(** Step 6, first half: the bonus for length and diversity. *)
Definition score_after_practice (password : str) : Q :=
  let score := score_after_patterns password in
  let length := List.length password in
  let char_type_count := char_type_count (_identify_char_sets password) in
  if ((12 <=? length)%nat && (3 <=? char_type_count)%Z)%bool
  then score + 10 else score.

(** Step 6, second half, and the return statement
    [min(100, max(0, score))].  Nothing converts the float subtotal to an
    integer. *)
Definition _calculate_strength_score (password : str) : Q :=
  let score := score_after_practice password in
  let score :=
    if negb (_has_repeated_chars password) then score + 5 else score in
  Qmin 100 (Qmax 0 score).

Local Close Scope Q_scope.

End Analyzer.

(** ** Strength level *)

Definition _determine_strength_level (strength_score : Q) : string :=
  if Qle_bool 80 strength_score then "Very Strong"
  else if Qle_bool 60 strength_score then "Strong"
  else if Qle_bool 40 strength_score then "Moderate"
  else if Qle_bool 20 strength_score then "Weak"
  else "Very Weak".

(** Whether a number has an integral value (Python: [x == int(x)]). *)
Definition is_integral (x : Q) : bool :=
  Qnum x mod Zpos (Qden x) =? 0.

(** ** Exceptions *)

Inductive exn : Type :=
  | ValueError (msg : string)
  | OverflowError (msg : string).

Inductive result (A : Type) : Type :=
  | Ok (a : A)
  | Raise (e : exn).

Arguments Ok {A} a.
Arguments Raise {A} e.

Definition bind {A B : Type} (r : result A) (k : A -> result B) : result B :=
  match r with
  | Ok a => k a
  | Raise e => Raise e
  end.

Notation "x <- r ;; k" := (bind r (fun x => k))
  (at level 61, r at next level, right associativity).

(** A list comprehension whose body may raise: the first exception ends it. *)
Fixpoint comprehension {A B : Type} (f : A -> result B) (l : list A)
  : result (list B) :=
  match l with
  | [] => Ok []
  | a :: l' => b <- f a ;; bs <- comprehension f l' ;; Ok (b :: bs)
  end.

(** ** Floats *)

(** The least magnitude that binary64 rounds out of range: half-way between
    the largest finite float, [2^1024 - 2^971], and [2^1024]. *)
Definition DBL_OVERFLOW : Z := 2 ^ 1024 - 2 ^ 970.

(** Python's [a / b] on two [int]s ([b] positive): the correctly rounded
    quotient, or [OverflowError] when it does not fit a float. *)
Definition int_truediv (a : Z) (b : positive) : result Q :=
  if Qle_bool (inject_Z DBL_OVERFLOW) (Qabs (a # b))
  then Raise (OverflowError "integer division result too large for a float")
  else Ok (a # b).

Definition Qlt_bool (x y : Q) : bool := negb (Qle_bool y x).

(** ** Crack-time estimate *)

(** [time_human]: the word [Instant], or a number printed with a format and
    followed by a unit.  [Fixed2 v u] stands for the text of [v] with two
    decimals then [u]; [Sci2 v u] for [v] in scientific notation with two
    decimals then [u]. *)
Inductive time_human_t : Type :=
  | Instant
  | Fixed2 (value : Q) (unit : string)
  | Sci2 (value : Q) (unit : string).

Local Open Scope Q_scope.

Definition _format_time (seconds : Q) : time_human_t :=
  if Qlt_bool seconds 1 then Instant
  else if Qlt_bool seconds 60 then Fixed2 seconds "seconds"
  else if Qlt_bool seconds 3600 then Fixed2 (seconds / 60) "minutes"
  else if Qlt_bool seconds 86400 then Fixed2 (seconds / 3600) "hours"
  else if Qlt_bool seconds 31536000 then Fixed2 (seconds / 86400) "days"
  else if Qlt_bool seconds (31536000 * 1000)
       then Fixed2 (seconds / 31536000) "years"
  else if Qlt_bool seconds (31536000 * 1000000)
       then Fixed2 (seconds / (31536000 * 1000)) "thousand years"
  else if Qlt_bool seconds (31536000 * 1e9)
       then Fixed2 (seconds / (31536000 * 1e6)) "million years"
  else if Qlt_bool seconds (31536000 * 1e12)
       then Fixed2 (seconds / (31536000 * 1e9)) "billion years"
  else Sci2 (seconds / (31536000 * 1e12)) "trillion years".

Record crack_time_t : Type := {
  algorithm : string;
  attack_speed : Q;
  combinations : Z;
  time_seconds : Q;
  time_human : time_human_t
}.

Definition ALGORITHMS : list string :=
  ["plaintext"; "md5"; "sha256"; "bcrypt"; "argon2"]%string.

Section CrackTime.

Variable U : unicode_db.

Definition estimate_crack_time (password : str) (algorithm : string)
  : result crack_time_t :=
  match dict_get algorithm ATTACK_SPEEDS with
  | None => Raise (ValueError ("Unknown algorithm: " ++ algorithm))
  | Some attack_speed =>
      let charset_size := charset_size (_identify_char_sets U password) in
      let charset_size :=
        if (charset_size =? 0)%Z then 26%Z else charset_size in
      let total_combinations :=
        (charset_size ^ Z.of_nat (List.length password))%Z in
      let total_combinations :=
        if is_common U password then 1%Z else total_combinations in
      avg_attempts <- int_truediv total_combinations 2 ;;
      let time_seconds := avg_attempts / attack_speed in
      Ok {| algorithm := algorithm;
            attack_speed := attack_speed;
            combinations := total_combinations;
            time_seconds := time_seconds;
            time_human := _format_time time_seconds |}
  end.

Definition get_all_crack_times (password : str) : result (list crack_time_t) :=
  comprehension (estimate_crack_time password) ALGORITHMS.

(** The value of the local [total_combinations] of [estimate_crack_time]
    when it is divided by 2 (see [estimate_crack_time_eq]). *)
Definition total_combinations (password : str) : Z :=
  let charset_size := charset_size (_identify_char_sets U password) in
  let charset_size :=
    if (charset_size =? 0)%Z then 26%Z else charset_size in
  if is_common U password then 1%Z
  else (charset_size ^ Z.of_nat (List.length password))%Z.

End CrackTime.

Local Close Scope Q_scope.

(** ** Suggestions *)

(** The text of a non-negative [int] inside an f-string. *)
Definition str_of_nat (n : nat) : string :=
  NilEmpty.string_of_uint (Nat.to_uint n).

Local Open Scope string_scope.

Definition MSG_LENGTH_12 (length : nat) : string :=
  "📏 Increase length to at least 12 characters (current: "
  ++ str_of_nat length ++ ")".

Definition MSG_LENGTH_16 (length : nat) : string :=
  "📏 Consider increasing length to 16+ characters for better security (current: "
  ++ str_of_nat length ++ ")".

Definition MSG_UPPERCASE : string := "🔠 Add uppercase letters (A-Z)".
Definition MSG_LOWERCASE : string := "🔡 Add lowercase letters (a-z)".
Definition MSG_DIGITS : string := "🔢 Add numbers (0-9)".
Definition MSG_SPECIAL : string := "🔣 Add special characters (!@#$%^&*)".
Definition MSG_COMMON : string :=
  "⚠️  CRITICAL: This is a commonly used password! Change it immediately!".
Definition MSG_PATTERNS : string :=
  "🔄 Avoid predictable patterns (abc, 123, aaa, keyboard patterns)".
Definition MSG_REPEATED : string :=
  "🚫 Avoid repeating the same character multiple times".
Definition MSG_DICTIONARY : string :=
  "📖 Avoid using single dictionary words - use passphrases or random characters".
Definition MSG_EXCELLENT : string :=
  "✅ Excellent password! Maintain this security level for all accounts.".

(** The three closing tips, in the order they are appended. *)
Definition BEST_PRACTICES : list string :=
  ["💡 Best Practice: Use a passphrase (e.g., 'Correct-Horse-Battery-Staple-2024!')";
   "🔐 Best Practice: Use a password manager to generate and store strong passwords";
   "🔄 Best Practice: Never reuse passwords across different accounts"].

Local Close Scope string_scope.

(** [suggestions.append(msg)] under a condition. *)
Definition append_if (cond : bool) (msg : string) (suggestions : list string)
  : list string :=
  if cond then suggestions ++ [msg] else suggestions.

Section Suggestions.

Variable U : unicode_db.

(** The rule-based part: everything before the best-practice block. *)
Definition fired_suggestions (password : str) : list string :=
  let length := List.length password in
  let char_sets := _identify_char_sets U password in
  let suggestions := [] in
  let suggestions :=
    if (length <? 12)%nat then suggestions ++ [MSG_LENGTH_12 length]
    else if (length <? 16)%nat then suggestions ++ [MSG_LENGTH_16 length]
    else suggestions in
  let suggestions :=
    append_if (negb (uppercase char_sets)) MSG_UPPERCASE suggestions in
  let suggestions :=
    append_if (negb (lowercase char_sets)) MSG_LOWERCASE suggestions in
  let suggestions :=
    append_if (negb (digits char_sets)) MSG_DIGITS suggestions in
  let suggestions :=
    append_if (negb (special char_sets)) MSG_SPECIAL suggestions in
  let suggestions :=
    append_if (is_common U password) MSG_COMMON suggestions in
  let suggestions :=
    append_if (_has_simple_patterns U password) MSG_PATTERNS suggestions in
  let suggestions :=
    append_if (_has_repeated_chars password) MSG_REPEATED suggestions in
  let suggestions :=
    append_if ((4 <=? List.length password)%nat && isalpha U password)
      MSG_DICTIONARY suggestions in
  suggestions.

Definition get_enhancement_suggestions (password : str) : list string :=
  let suggestions := fired_suggestions password in
  let suggestions :=
    if (0 <? List.length suggestions)%nat then suggestions ++ BEST_PRACTICES
    else suggestions in
  let suggestions :=
    if (List.length suggestions =? 0)%nat then suggestions ++ [MSG_EXCELLENT]
    else suggestions in
  suggestions.

End Suggestions.

(** ** The guard of the analysis endpoint ([analyze_password] in [api.py])

    The request body either lacks the key [password] ([None]) or carries a
    string.  The endpoint answers 400 before any analysis when the key is
    missing or the string is empty; [None] here means the request goes on to
    [PasswordAnalyzer]. *)
Definition analyze_password_rejects (data : option str)
  : option (nat * string) :=
  match data with
  | None => Some (400%nat, "Password is required"%string)
  | Some password =>
      if (List.length password =? 0)%nat
      then Some (400%nat, "Password cannot be empty"%string)
      else None
  end.

(** ** Vocabulary of the specification *)

(** A password mixes case when it has a lowercase and an uppercase letter. *)
Definition mixes_case (U : unicode_db) (password : str) : bool :=
  (lowercase (_identify_char_sets U password)
   && uppercase (_identify_char_sets U password))%bool.

Definition all_four_classes (cs : char_sets_t) : bool :=
  (lowercase cs && uppercase cs && digits cs && special cs)%bool.

(** The tests of [get_enhancement_suggestions] under which no rule fires,
    each as the analyzer computes it: the character classes of
    [_identify_char_sets], the regexes of [_has_simple_patterns] and of
    [_has_repeated_chars], [str.isalpha]. *)
Definition excellent_conditions (U : unicode_db) (password : str) : bool :=
  ((16 <=? List.length password)%nat
   && all_four_classes (_identify_char_sets U password)
   && negb (is_common U password)
   && negb (_has_simple_patterns U password)
   && negb (_has_repeated_chars password)
   && negb ((4 <=? List.length password)%nat && isalpha U password))%bool.

(** A password of 300 letters [a]. *)
Definition LONG_PASSWORD : str := repeat 97%N 300.

(** Three identical characters in a row, as the specification words the
    repeated-character condition: every character counts, a newline too. *)
Fixpoint spec_three_in_a_row (s : str) : bool :=
  match s with
  | a :: ((b :: c :: _) as t) =>
      (N.eqb a b && N.eqb b c || spec_three_in_a_row t)%bool
  | _ => false
  end.

(** Sixteen characters of all four classes, then three newlines. *)
Definition NEWLINE_RUN_PASSWORD : str :=
  py "Aa1!Aa1!Aa1!Aa1!" ++ [10; 10; 10]%N.

(** * The HTTP layer ([api.py]) *)

(** What an endpoint answers: status 200 with the data, or an error status
    with its message. *)
Inductive api_response (A : Type) : Type :=
  | Success (data : A)
  | Failure (status : nat) (error : string).

Arguments Success {A} data.
Arguments Failure {A} status error.

(** [str(e)] for the exceptions of the analyzer. *)
Definition str_of_exn (e : exn) : string :=
  match e with
  | ValueError msg => msg
  | OverflowError msg => msg
  end.

(** [random.choice(seq)] when the generator draws [r]; every call site
    passes a non-empty sequence. *)
Definition choice {A : Type} (default : A) (seq : list A) (r : nat) : A :=
  nth (r mod List.length seq) seq default.

(** [random.randint(100, 999)] when the generator draws [r]. *)
Definition randint_100_999 (r : nat) : nat := (100 + r mod 900)%nat.

(** ** Request bodies *)

(** A Python [float] as [json.loads] can return it: a finite value, or one of
    the three that the literals NaN, Infinity and -Infinity give. *)
Inductive pyfloat : Type :=
  | FFinite (value : Q)
  | FNan
  | FInf
  | FNegInf.

(** A parsed JSON value, as Python holds it: [None], a [bool], an [int], a
    [float], a [str], a [list] or a [dict] with string keys. *)
#[warnings="-register-all"]
Inductive json : Type :=
  | JNone
  | JBool (b : bool)
  | JInt (n : Z)
  | JFloat (f : pyfloat)
  | JStr (s : str)
  | JList (items : list json)
  | JDict (entries : list (str * json)).

(** What [request.get_json()] does with a request: it returns the parsed
    body, or it raises (for a body that is not JSON) and [str(e)] is the
    message. *)
Inductive get_json_t : Type :=
  | Parsed (data : json)
  | GetJsonRaises (message : string).

(** The truth value of a Python object, as [not x], [x or y] and [if x:]
    test it. *)
Definition truthy (v : json) : bool :=
  match v with
  | JNone => false
  | JBool b => b
  | JInt n => negb (n =? 0)
  | JFloat (FFinite value) => negb (Qeq_bool value 0)
  | JFloat _ => true
  | JStr s => negb (List.length s =? 0)%nat
  | JList items => negb (List.length items =? 0)%nat
  | JDict entries => negb (List.length entries =? 0)%nat
  end.

(** The value a [dict] holds under a key. *)
Fixpoint json_dict_get (key : str) (entries : list (str * json))
  : option json :=
  match entries with
  | [] => None
  | (k, v) :: entries' =>
      if str_eqb k key then Some v else json_dict_get key entries'
  end.

(** [data.get(key, default)] on a [dict]. *)
Definition json_get_default (key : str) (entries : list (str * json))
           (default : json) : json :=
  match json_dict_get key entries with
  | Some v => v
  | None => default
  end.

(** [key in data] for a string [key]: a key of a [dict], an element of a
    [list], a substring of a [str]; [None] is the [TypeError] of every other
    object. *)
Definition py_contains (key : str) (data : json) : option bool :=
  match data with
  | JDict entries =>
      Some (match json_dict_get key entries with
            | Some _ => true
            | None => false
            end)
  | JList items =>
      Some (existsb (fun v => match v with
                              | JStr s => str_eqb s key
                              | _ => false
                              end) items)
  | JStr s => Some (search_literal key s)
  | _ => None
  end.

(** [data[key]] for a string [key] that [data] contains: the value of a
    [dict]; [None] is the [TypeError] of a [list] or a [str]. *)
Definition py_subscript (key : str) (data : json) : option json :=
  match data with
  | JDict entries => json_dict_get key entries
  | _ => None
  end.

(** The argument that [range] receives from
    [max(0, length - len(password))], for [n] characters already chosen.
    [None] is a [TypeError]: of the subtraction when [length] is [None], a
    [str], a [list] or a [dict], of [range] when the difference is a positive
    [float].  [max] keeps its first argument, the [int] 0, unless the
    difference is greater. *)
Definition remaining_length (length : json) (n : nat) : option nat :=
  match length with
  | JInt z => Some (Z.to_nat (Z.max 0 (z - Z.of_nat n)))
  | JBool b => Some (Z.to_nat (Z.max 0 (Z.b2z b - Z.of_nat n)))
  | JFloat (FFinite value) =>
      if Qlt_bool (inject_Z (Z.of_nat n)) value then None else Some 0%nat
  | JFloat FInf => None
  | JFloat FNan => Some 0%nat
  | JFloat FNegInf => Some 0%nat
  | JNone => None
  | JStr _ => None
  | JList _ => None
  | JDict _ => None
  end.

(** ** Analysis endpoint *)

(** The expression [v[:60] + '...' if len(v) > 60 else v] applied to every
    hash of the response. *)
Definition truncate_hash (v : str) : str :=
  if (60 <? List.length v)%nat then firstn 60 v ++ py "..." else v.

Record strength_t : Type := {
  st_score : Q;
  st_level : string;
  st_length : nat;
  st_entropy : R;
  st_char_sets : char_sets_t;
  st_is_common : bool
}.

(** One entry of [crack_times] in the response: four of the five fields of
    an estimate. *)
Record crack_time_view : Type := {
  cv_algorithm : string;
  cv_time_human : time_human_t;
  cv_time_seconds : Q;
  cv_attack_speed : Q
}.

Record analysis_t : Type := {
  an_strength : strength_t;
  an_crack_times : list crack_time_view;
  an_suggestions : list string;
  an_hashes : list (string * str)
}.

(** ** Generation endpoint *)

Definition ascii_lowercase : str := py "abcdefghijklmnopqrstuvwxyz".
Definition ascii_uppercase : str := py "ABCDEFGHIJKLMNOPQRSTUVWXYZ".
Definition string_digits : str := py "0123456789".
Definition GENERATOR_SPECIALS : str := py "!@#$%^&*()_+-=[]{}|;:,.<>?".

Record generated_t : Type := {
  gn_password : str;
  gn_score : Q;
  gn_level : string;
  gn_length : nat;
  gn_entropy : R
}.

(** ** Improvement endpoint *)

Record improvement_t : Type := {
  im_password : str;
  im_strategy : string;
  im_description : string;
  im_score : Q;
  im_level : string;
  im_length : nat
}.

Record improvements_t : Type := {
  ip_original : str;
  ip_improvements : list improvement_t
}.

(** The class [[!@#$%^&*()_+-]] of the second strategy. *)
Definition IMPROVE_SPECIAL_CLASS : str := py "!@#$%^&*()_+-".

Definition IMPROVE_SUFFIXES : list str := map py ["2024"; "2025"; "@123"]%string.
Definition IMPROVE_SPECIAL_CHARS : str := py "!@#$%&*".
Definition IMPROVE_WORDS : list str :=
  map py ["Secure"; "Strong"; "Private"; "Safe"]%string.

(** [leet_map], in insertion order. *)
Definition leet_map : list (codepoint * codepoint) :=
  [(97, 64); (101, 51); (105, 33); (111, 48); (115, 36); (116, 55)]%N.

(** [s.replace(old, new, 1)] for one-character [old] and [new]. *)
Fixpoint replace_first (old new : codepoint) (s : str) : str :=
  match s with
  | [] => []
  | c :: s' => if N.eqb c old then new :: s' else c :: replace_first old new s'
  end.

(** The loop of the fourth strategy: for each pair of [leet_map], in order,
    the first occurrence of the letter is replaced. *)
Definition leetspeak (original : str) : str :=
  fold_left (fun improved kv => replace_first (fst kv) (snd kv) improved)
    leet_map original.

(** [improvements.sort(key=score, reverse=True)]: a stable sort by
    descending score; an element moves only past strictly greater scores. *)
Fixpoint insert_by_score (x : improvement_t) (l : list improvement_t)
  : list improvement_t :=
  match l with
  | [] => [x]
  | y :: l' =>
      if Qlt_bool (im_score x) (im_score y) then y :: insert_by_score x l'
      else x :: l
  end.

Definition sort_by_score_desc (l : list improvement_t) : list improvement_t :=
  fold_right insert_by_score [] l.

(** The order of the returned list: no score below the next one. *)
Definition score_ge (x y : improvement_t) : Prop :=
  (im_score y <= im_score x)%Q.

(** The four classes a generation request selects: the truth values of its
    four [include_...] entries, each [True] when absent. *)
Definition requested_classes (entries : list (str * json)) : char_sets_t :=
  {| lowercase :=
       truthy (json_get_default (py "include_lowercase") entries
                 (JBool true));
     uppercase :=
       truthy (json_get_default (py "include_uppercase") entries
                 (JBool true));
     digits :=
       truthy (json_get_default (py "include_digits") entries (JBool true));
     special :=
       truthy (json_get_default (py "include_special") entries
                 (JBool true)) |}.

Section Api.

Variable U : unicode_db.

(** [round(x, 2)] on a float. *)
Variable round2 : R -> R.

(** [PasswordAnalyzer.get_hash_comparison], which calls the hashing
    libraries: the five digests, or the exception of a backend. *)
Variable get_hash_comparison : str -> result (list (string * str)).

(** The draw of the random generator at each call site. *)
Variable rand : nat -> nat.

(** The outcome of [random.shuffle]. *)
Variable shuffle : str -> str.

(** [str.upper] of one character above 127. *)
Variable uni_upper : codepoint -> str.

(** [str(e)] of the [TypeError] or [AttributeError] that the interpreter
    raises when an endpoint uses a parsed body as it must not; the text
    depends on the body and on the interpreter. *)
Variable error_text : json -> string.

Definition crack_time_to_view (ct : crack_time_t) : crack_time_view :=
  {| cv_algorithm := algorithm ct;
     cv_time_human := time_human ct;
     cv_time_seconds := time_seconds ct;
     cv_attack_speed := attack_speed ct |}.

(** The analysis of a password that is a non-empty string: the body of
    the [try] block of [analyze_password] from [PasswordAnalyzer(password)]
    on, and its [except] clause. *)
Definition analyze_text (password : str) : api_response analysis_t :=
  match
    (crack_times <- get_all_crack_times U password ;;
     let suggestions := get_enhancement_suggestions U password in
     hashes <- get_hash_comparison password ;;
     Ok {| an_strength :=
             {| st_score := _calculate_strength_score U password;
                st_level :=
                  _determine_strength_level
                    (_calculate_strength_score U password);
                st_length := List.length password;
                st_entropy := round2 (_calculate_entropy U password);
                st_char_sets := _identify_char_sets U password;
                st_is_common := is_common U password |};
           an_crack_times := map crack_time_to_view crack_times;
           an_suggestions := suggestions;
           an_hashes :=
             map (fun kv => (fst kv, truncate_hash (snd kv))) hashes |})
  with
  | Ok response_data => Success response_data
  | Raise e => Failure 500 (str_of_exn e)
  end.

(** The first lines of [analyze_password] and of [improve_password], which
    are the same: the tests [not data or 'password' not in data] and
    [not password], then [on_text] for a password that is a non-empty string.
    Any other object passes both tests only to raise a [TypeError] at its
    first use as a string ([len] of a number, a regex search or a
    concatenation on a [list] or a [dict]), which the [except] clause turns
    into a 500. *)
Definition with_password {A : Type} (on_text : str -> api_response A)
           (body : get_json_t) : api_response A :=
  match body with
  | GetJsonRaises message => Failure 500 message
  | Parsed data =>
      if negb (truthy data) then Failure 400 "Password is required"
      else
        match py_contains (py "password") data with
        | None => Failure 500 (error_text data)
        | Some false => Failure 400 "Password is required"
        | Some true =>
            match py_subscript (py "password") data with
            | None => Failure 500 (error_text data)
            | Some password =>
                if negb (truthy password)
                then Failure 400 "Password cannot be empty"
                else
                  match password with
                  | JStr text => on_text text
                  | _ => Failure 500 (error_text data)
                  end
            end
        end
  end.

Definition analyze_password (body : get_json_t) : api_response analysis_t :=
  with_password analyze_text body.

Definition generate_password (body : get_json_t)
  : api_response generated_t :=
  match body with
  | GetJsonRaises message => Failure 500 message
  | Parsed parsed =>
      (* data = request.get_json() or {} *)
      let data := if truthy parsed then parsed else JDict [] in
      match data with
      | JDict entries =>
          let length := json_get_default (py "length") entries (JInt 16) in
          let include_lowercase :=
            truthy (json_get_default (py "include_lowercase") entries
                      (JBool true)) in
          let include_uppercase :=
            truthy (json_get_default (py "include_uppercase") entries
                      (JBool true)) in
          let include_digits :=
            truthy (json_get_default (py "include_digits") entries
                      (JBool true)) in
          let include_special :=
            truthy (json_get_default (py "include_special") entries
                      (JBool true)) in
          let chars := [] in
          let chars :=
            if include_lowercase then chars ++ ascii_lowercase else chars in
          let chars :=
            if include_uppercase then chars ++ ascii_uppercase else chars in
          let chars :=
            if include_digits then chars ++ string_digits else chars in
          let chars :=
            if include_special then chars ++ GENERATOR_SPECIALS else chars in
          if (List.length chars =? 0)%nat
          then Failure 400 "At least one character type must be selected"
          else
            let password := [] in
            let password :=
              if include_lowercase
              then password
                   ++ [choice 0%N ascii_lowercase
                         (rand (List.length password))]
              else password in
            let password :=
              if include_uppercase
              then password
                   ++ [choice 0%N ascii_uppercase
                         (rand (List.length password))]
              else password in
            let password :=
              if include_digits
              then password
                   ++ [choice 0%N string_digits
                         (rand (List.length password))]
              else password in
            let password :=
              if include_special
              then password
                   ++ [choice 0%N GENERATOR_SPECIALS
                         (rand (List.length password))]
              else password in
            match remaining_length length (List.length password) with
            | None => Failure 500 (error_text parsed)
            | Some remaining =>
                let password :=
                  password
                  ++ map (fun i =>
                            choice 0%N chars
                              (rand (List.length password + i)))
                       (seq 0 remaining) in
                let generated_password := shuffle password in
                Success
                  {| gn_password := generated_password;
                     gn_score :=
                       _calculate_strength_score U generated_password;
                     gn_level :=
                       _determine_strength_level
                         (_calculate_strength_score U generated_password);
                     gn_length := List.length generated_password;
                     gn_entropy :=
                       round2 (_calculate_entropy U generated_password) |}
            end
      | _ => Failure 500 (error_text parsed)
      end
  end.

(** [c.upper()] for one character. *)
Definition upper_char (c : codepoint) : str :=
  if is_ascii c then [if in_range 97 122 c then (c - 32)%N else c]
  else uni_upper c.

(** A candidate as the strategies build it, before it is analyzed. *)
Definition candidate (password : str) (strategy description : string)
  : str * string * string :=
  (password, strategy, description).

(** The loop [for improvement in improvements] that adds score, level and
    length to a candidate. *)
Definition analyze_candidate (c : str * string * string) : improvement_t :=
  let '(password, strategy, description) := c in
  {| im_password := password;
     im_strategy := strategy;
     im_description := description;
     im_score := _calculate_strength_score U password;
     im_level :=
       _determine_strength_level (_calculate_strength_score U password);
     im_length := List.length password |}.

Definition improvement_candidates (original : str)
  : list (str * string * string) :=
  let improvements := [] in
  (* Strategy 1: add length *)
  let improvements :=
    if (List.length original <? 16)%nat
    then
      let improved := original ++ choice [] IMPROVE_SUFFIXES (rand 0) in
      improvements
      ++ [candidate improved "Added characters"
            ("Extended to " ++ str_of_nat (List.length improved)
             ++ " characters")]
    else improvements in
  (* Strategy 2: add special characters *)
  let improvements :=
    if negb (search_class (fun c => existsb (N.eqb c) IMPROVE_SPECIAL_CLASS)
               original)
    then
      let improved :=
        original ++ [choice 0%N IMPROVE_SPECIAL_CHARS (rand 1)] in
      improvements
      ++ [candidate improved "Added special character"
            "Increased complexity with symbols"]
    else improvements in
  (* Strategy 3: add uppercase *)
  let improvements :=
    if negb (search_class (in_range 65 90) original)
    then
      let improved :=
        match original with
        | c :: rest => upper_char c ++ rest
        | [] => original
        end in
      improvements
      ++ [candidate improved "Added uppercase" "Capitalized first letter"]
    else improvements in
  (* Strategy 4: leetspeak *)
  let improved := leetspeak original in
  let improvements :=
    if negb (str_eqb improved original)
    then
      improvements
      ++ [candidate improved "Character substitution"
            "Replaced letters with numbers/symbols"]
    else improvements in
  (* Strategy 5: add numbers *)
  let improvements :=
    if negb (search_class (is_digit U) original)
    then
      let improved :=
        original ++ py (str_of_nat (randint_100_999 (rand 2))) in
      improvements
      ++ [candidate improved "Added numbers" "Appended numeric sequence"]
    else improvements in
  (* Strategy 6: passphrase variant *)
  let improvements :=
    if (3 <? List.length original)%nat
    then
      let improved :=
        choice [] IMPROVE_WORDS (rand 3) ++ py "-" ++ original ++ py "-"
        ++ py (str_of_nat (randint_100_999 (rand 4))) ++ py "!" in
      improvements
      ++ [candidate improved "Passphrase creation"
            "Created memorable passphrase"]
    else improvements in
  improvements.

(** The improvement of a password that is a non-empty string: the
    six strategies, the analysis of each variation, the sort and the cut to
    five. *)
Definition improve_text (original : str) : api_response improvements_t :=
  let improvements :=
    map analyze_candidate (improvement_candidates original) in
  let improvements := sort_by_score_desc improvements in
  Success {| ip_original := original;
             ip_improvements := firstn 5 improvements |}.

Definition improve_password (body : get_json_t)
  : api_response improvements_t :=
  with_password improve_text body.

End Api.

(** * Properties *)

(** ** Logarithms and the integer entropy test *)

Lemma ln_2_pos : (0 < ln 2)%R.
Proof.
  rewrite <- ln_1. apply ln_increasing; lra.
Qed.

Lemma ln_le_iff (x y : R) :
  (0 < x)%R -> (0 < y)%R -> (x <= y)%R <-> (ln x <= ln y)%R.
Proof.
  intros Hx Hy. split; intros H.
  - destruct H as [H | ->]; [left; now apply ln_increasing | right; reflexivity].
  - destruct H as [H | H]; [left; now apply ln_lt_inv | right; now apply ln_inv].
Qed.

Lemma ln_IZR_pow (a : Z) (n : nat) :
  0 < a -> ln (IZR (a ^ Z.of_nat n)) = (INR n * ln (IZR a))%R.
Proof.
  intros Ha. rewrite <- pow_IZR. apply ln_pow. now apply IZR_lt.
Qed.

(** Comparing two integer powers is comparing the scaled logarithms. *)
Lemma pow_le_ln (a b : Z) (n m : nat) :
  0 < a -> 0 < b ->
  (b ^ Z.of_nat m <= a ^ Z.of_nat n <->
   (INR m * ln (IZR b) <= INR n * ln (IZR a))%R).
Proof.
  intros Ha Hb.
  rewrite <- (ln_IZR_pow a n Ha), <- (ln_IZR_pow b m Hb).
  rewrite <- ln_le_iff by (apply IZR_lt; apply Z.pow_pos_nonneg; lia).
  split; [apply IZR_le | apply le_IZR].
Qed.

Lemma pow_lt_ln (a b : Z) (n m : nat) :
  0 < a -> 0 < b ->
  b ^ Z.of_nat m < a ^ Z.of_nat n ->
  (INR m * ln (IZR b) < INR n * ln (IZR a))%R.
Proof.
  intros Ha Hb H.
  rewrite <- (ln_IZR_pow a n Ha), <- (ln_IZR_pow b m Hb).
  apply ln_increasing; [apply IZR_lt; apply Z.pow_pos_nonneg; lia |].
  now apply IZR_lt.
Qed.

Lemma pow_lt_ln_Z (a b n m : Z) :
  0 < a -> 0 < b -> 0 <= n -> 0 <= m ->
  b ^ m < a ^ n ->
  (IZR m * ln (IZR b) < IZR n * ln (IZR a))%R.
Proof.
  intros Ha Hb Hn Hm H.
  rewrite <- (Z2Nat.id n Hn), <- (Z2Nat.id m Hm) in H.
  apply pow_lt_ln in H; [| assumption ..].
  rewrite !INR_IZR_INZ, !Z2Nat.id in H by assumption.
  exact H.
Qed.

Lemma charset_size_nonneg (cs : char_sets_t) : 0 <= charset_size cs.
Proof.
  destruct cs as [[] [] [] []]; vm_compute; congruence.
Qed.

Lemma char_type_count_range (cs : char_sets_t) : 0 <= char_type_count cs <= 4.
Proof.
  destruct cs as [[] [] [] []]; vm_compute; split; congruence.
Qed.

(** The integer test used by the scorer is the comparison of the real-valued
    entropy with the threshold. *)
Lemma entropy_ge_spec (U : unicode_db) (password : str) (k : Z) :
  0 <= k ->
  entropy_ge U password k = true <->
  (IZR k <= _calculate_entropy U password)%R.
Proof.
  intros Hk. unfold entropy_ge, _calculate_entropy.
  pose proof (charset_size_nonneg (_identify_char_sets U password)) as Hcs.
  destruct (Z.eqb_spec (charset_size (_identify_char_sets U password)) 0)
    as [E | E].
  - rewrite Z.leb_le. split; [apply IZR_le | apply le_IZR].
  - set (c := charset_size (_identify_char_sets U password)) in *.
    rewrite Z.leb_le.
    rewrite <- (Z2Nat.id k Hk) at 1.
    rewrite (pow_le_ln c 2 _ _) by lia.
    rewrite INR_IZR_INZ, (Z2Nat.id k Hk).
    unfold log2. pose proof ln_2_pos as L2.
    split; intros H.
    + apply (Rmult_le_reg_r (ln 2)); [exact L2 |].
      replace (INR (List.length password) * (ln (IZR c) / ln 2) * ln 2)%R
        with (INR (List.length password) * ln (IZR c))%R by (field; lra).
      exact H.
    + apply (Rmult_le_compat_r (ln 2)) in H; [| lra].
      replace (INR (List.length password) * (ln (IZR c) / ln 2) * ln 2)%R
        with (INR (List.length password) * ln (IZR c))%R in H by (field; lra).
      exact H.
Qed.

(** ** The score stays in range *)

Lemma strength_score_range (U : unicode_db) (password : str) :
  (0 <= _calculate_strength_score U password
   /\ _calculate_strength_score U password <= 100)%Q.
Proof.
  unfold _calculate_strength_score. split.
  - apply Q.min_glb; [discriminate | apply Q.le_max_l].
  - apply Q.le_min_l.
Qed.

(** ** The worked example [Pass123] *)

Lemma pass123_entropy (U : unicode_db) :
  _calculate_entropy U (py "Pass123") = (7 * log2 62)%R.
Proof.
  unfold _calculate_entropy.
  assert (E : charset_size (_identify_char_sets U (py "Pass123")) = 62)
    by (vm_compute; reflexivity).
  rewrite E.
  change (List.length (py "Pass123")) with 7%nat.
  change (62 =? 0) with false. cbv iota.
  rewrite INR_IZR_INZ. reflexivity.
Qed.

Lemma log2_62_bounds : (41.675 < 7 * log2 62 < 41.685)%R.
Proof.
  assert (Lo : 2 ^ 1667 < 62 ^ 280) by (vm_compute; reflexivity).
  assert (Hi : 62 ^ 1400 < 2 ^ 8337) by (vm_compute; reflexivity).
  pose proof (pow_lt_ln_Z 62 2 280 1667 eq_refl eq_refl
                (Zle_0_pos _) (Zle_0_pos _) Lo) as Lo'.
  pose proof (pow_lt_ln_Z 2 62 8337 1400 eq_refl eq_refl
                (Zle_0_pos _) (Zle_0_pos _) Hi) as Hi'.
  clear Lo Hi.
  unfold log2. pose proof ln_2_pos as L2.
  set (x := ln 62) in *. set (y := ln 2) in *.
  replace (7 * (x / y))%R with ((7 * x) / y)%R by (field; lra).
  split.
  - apply (Rmult_lt_reg_r y); [exact L2 |].
    replace (7 * x / y * y)%R with (7 * x)%R by (field; lra). lra.
  - apply (Rmult_lt_reg_r y); [exact L2 |].
    replace (7 * x / y * y)%R with (7 * x)%R by (field; lra). lra.
Qed.

(** C1, as stated, fails: the score of [Pass123] is not 42 and its level is
    not Moderate. *)
Lemma pass123_not_42_moderate :
  ~ (_calculate_strength_score ascii_db (py "Pass123") == 42)%Q
  /\ _determine_strength_level
       (_calculate_strength_score ascii_db (py "Pass123"))
     <> "Moderate"%string.
Proof.
  split; vm_compute; discriminate.
Qed.

(** C1 (amended): analyzing [Pass123] gives length 7, lowercase, uppercase
    and digits but no special character, entropy [7 * log2 62] (41.68 bits to
    two decimals) and the subtotal 37.5 = 5 (length) + 22.5 (diversity) +
    10 (entropy).  The password is not common but contains [123], so the
    simple-pattern penalty of 20 applies and leaves 17.5; there is no
    length bonus, the no-repeat bonus adds 5, the total is 22.5 before the
    return statement, the integer part of the score is 22 and the level is
    Weak. *)
Theorem pass123_analysis (U : unicode_db) :
  List.length (py "Pass123") = 7%nat
  /\ _identify_char_sets U (py "Pass123")
     = {| lowercase := true; uppercase := true; digits := true;
          special := false |}
  /\ _calculate_entropy U (py "Pass123") = (7 * log2 62)%R
  /\ (41.675 < _calculate_entropy U (py "Pass123") < 41.685)%R
  /\ (score_components U (py "Pass123") == 5 + 22.5 + 10)%Q
  /\ is_common U (py "Pass123") = false
  /\ _has_simple_patterns U (py "Pass123") = true
  /\ (score_after_patterns U (py "Pass123") == 17.5)%Q
  /\ (score_after_practice U (py "Pass123") == 17.5)%Q
  /\ _has_repeated_chars (py "Pass123") = false
  /\ (score_after_practice U (py "Pass123") + 5 == 22.5)%Q
  /\ Qfloor (_calculate_strength_score U (py "Pass123")) = 22
  /\ _determine_strength_level (_calculate_strength_score U (py "Pass123"))
     = "Weak"%string.
Proof.
  repeat split; try (vm_compute; reflexivity).
  - apply pass123_entropy.
  - rewrite pass123_entropy. apply log2_62_bounds.
  - rewrite pass123_entropy. apply log2_62_bounds.
Qed.

(** C2: the score always lies between 0 and 100, but it is not always an
    integer: for [Pass123] the function returns 22.5, although its signature
    announces an [int] and the example table of [api.py] expects 22. *)
Theorem strength_score_not_integer (U : unicode_db) :
  (forall password : str,
      0 <= _calculate_strength_score U password
      /\ _calculate_strength_score U password <= 100)%Q
  /\ (_calculate_strength_score U (py "Pass123") == 22.5)%Q
  /\ is_integral (_calculate_strength_score U (py "Pass123")) = false.
Proof.
  split; [apply strength_score_range |].
  split; vm_compute; reflexivity.
Qed.

(** ** Strength level *)

Lemma Qle_bool_false (x y : Q) : Qle_bool x y = false -> (y < x)%Q.
Proof.
  intros H. apply Qnot_le_lt. intros L.
  apply Qle_bool_iff in L. congruence.
Qed.

(** C3, as stated, fails: 79 is not mapped to Moderate. *)
Lemma level_79_not_moderate :
  _determine_strength_level 79 <> "Moderate"%string.
Proof.
  vm_compute. discriminate.
Qed.

(** C3 (amended): the level is a function of the score alone, with
    mutually exclusive descending thresholds: at least 80 is Very Strong, at
    least 60 Strong, at least 40 Moderate, at least 20 Weak, anything lower
    Very Weak; in particular 79 maps to Strong and 80 to Very Strong. *)
Theorem strength_level_thresholds :
  (forall s : Q,
      (80 <= s /\ _determine_strength_level s = "Very Strong"%string)
      \/ (60 <= s < 80 /\ _determine_strength_level s = "Strong"%string)
      \/ (40 <= s < 60 /\ _determine_strength_level s = "Moderate"%string)
      \/ (20 <= s < 40 /\ _determine_strength_level s = "Weak"%string)
      \/ (s < 20 /\ _determine_strength_level s = "Very Weak"%string))%Q
  /\ _determine_strength_level 79 = "Strong"%string
  /\ _determine_strength_level 80 = "Very Strong"%string.
Proof.
  split; [| split; reflexivity].
  intros s. unfold _determine_strength_level.
  destruct (Qle_bool 80 s) eqn:E80.
  { left. split; [now apply Qle_bool_iff | reflexivity]. }
  apply Qle_bool_false in E80. right.
  destruct (Qle_bool 60 s) eqn:E60.
  { left. repeat split; [now apply Qle_bool_iff | assumption]. }
  apply Qle_bool_false in E60. right.
  destruct (Qle_bool 40 s) eqn:E40.
  { left. repeat split; [now apply Qle_bool_iff | assumption]. }
  apply Qle_bool_false in E40. right.
  destruct (Qle_bool 20 s) eqn:E20.
  { left. repeat split; [now apply Qle_bool_iff | assumption]. }
  apply Qle_bool_false in E20. right.
  split; [assumption | reflexivity].
Qed.

(** ** Spot checks *)

(** C8: [password] scores 5, but [correct-horse-battery-staple-2024] scores
    92.5 and not the 100 that the example table of [api.py] announces: it has
    33 characters of three classes (no uppercase letter), hence
    35 + 22.5 + 20 + 10 + 5. *)
Theorem spot_check_scores (U : unicode_db) :
  (_calculate_strength_score U (py "password") == 5)%Q
  /\ List.length (py "correct-horse-battery-staple-2024") = 33%nat
  /\ _identify_char_sets U (py "correct-horse-battery-staple-2024")
     = {| lowercase := true; uppercase := false; digits := true;
          special := true |}
  /\ (_calculate_strength_score U (py "correct-horse-battery-staple-2024")
      == 35 + 22.5 + 20 + 10 + 5)%Q
  /\ ~ (_calculate_strength_score U (py "correct-horse-battery-staple-2024")
        == 100)%Q.
Proof.
  repeat split; try (vm_compute; reflexivity).
  vm_compute. discriminate.
Qed.

(** ** The empty password *)

(** C9: the class accepts the empty string, which only the endpoint
    rejects: no character class, entropy 0, score 5 that comes from the
    no-repeat bonus alone, level Very Weak, and for every algorithm the
    fallback alphabet of 26 gives [26 ^ 0 = 1] combination and the text
    Instant. *)
Theorem empty_password_analysis (U : unicode_db) :
  analyze_password_rejects (Some (py ""))
  = Some (400%nat, "Password cannot be empty"%string)
  /\ _identify_char_sets U (py "")
     = {| lowercase := false; uppercase := false; digits := false;
          special := false |}
  /\ _calculate_entropy U (py "") = 0%R
  /\ (score_after_practice U (py "") == 0)%Q
  /\ _has_repeated_chars (py "") = false
  /\ (_calculate_strength_score U (py "") == 5)%Q
  /\ _determine_strength_level (_calculate_strength_score U (py ""))
     = "Very Weak"%string
  /\ Forall
       (fun algo =>
          exists t,
            estimate_crack_time U (py "") algo = Ok t
            /\ combinations t = 26 ^ 0
            /\ combinations t = 1
            /\ time_human t = Instant)
       ALGORITHMS.
Proof.
  repeat split; try (vm_compute; reflexivity).
  repeat constructor; eexists; (split; [vm_compute; reflexivity |]);
    repeat split.
Qed.

(** ** Crack times *)

Lemma known_algorithm (algo : string) :
  In algo ALGORITHMS ->
  exists speed, dict_get algo ATTACK_SPEEDS = Some speed /\ (1000 <= speed)%Q.
Proof.
  intros H. unfold ALGORITHMS in H. simpl in H.
  destruct H as [<- | [<- | [<- | [<- | [<- | []]]]]];
    eexists; (split; [reflexivity | vm_compute; discriminate]).
Qed.

Lemma unknown_algorithm (algo : string) :
  ~ In algo ALGORITHMS -> dict_get algo ATTACK_SPEEDS = None.
Proof.
  intros H. unfold ALGORITHMS in H. simpl in H. unfold ATTACK_SPEEDS.
  simpl.
  repeat match goal with
         | |- context [String.eqb algo ?k] =>
             destruct (String.eqb_spec algo k) as [-> | _];
             [exfalso; apply H; tauto |]
         end.
  reflexivity.
Qed.

(** An unknown name raises and no estimate is returned. *)
Lemma unknown_algorithm_raises (U : unicode_db) (password : str)
      (algo : string) :
  ~ In algo ALGORITHMS ->
  estimate_crack_time U password algo
  = Raise (ValueError ("Unknown algorithm: " ++ algo)).
Proof.
  intros H. unfold estimate_crack_time.
  now rewrite (unknown_algorithm algo H).
Qed.

(** C5: for a password whose lowercased form is a common password, each of
    the five algorithms sees exactly one combination, so the time is 0.5
    divided by the attack speed and the text is Instant. *)
Theorem common_password_instant (U : unicode_db) (password : str)
        (algo : string) :
  is_common U password = true ->
  In algo ALGORITHMS ->
  exists t,
    estimate_crack_time U password algo = Ok t
    /\ algorithm t = algo
    /\ dict_get algo ATTACK_SPEEDS = Some (attack_speed t)
    /\ combinations t = 1
    /\ (time_seconds t == 0.5 / attack_speed t)%Q
    /\ time_human t = Instant.
Proof.
  intros Hc Hin. unfold estimate_crack_time. rewrite Hc.
  unfold ALGORITHMS in Hin. simpl in Hin.
  destruct Hin as [<- | [<- | [<- | [<- | [<- | []]]]]];
    eexists; (split; [reflexivity |]);
    repeat split; vm_compute; reflexivity.
Qed.

Lemma common_password_instant_witness :
  exists t,
    estimate_crack_time ascii_db (py "Password") "md5" = Ok t
    /\ algorithm t = "md5"%string
    /\ dict_get "md5" ATTACK_SPEEDS = Some (attack_speed t)
    /\ combinations t = 1
    /\ (time_seconds t == 0.5 / attack_speed t)%Q
    /\ time_human t = Instant.
Proof.
  apply (common_password_instant ascii_db (py "Password") "md5").
  - vm_compute. reflexivity.
  - simpl. tauto.
Defined.

(** C4: with a password of 300 letters the integer division by 2 in
    [estimate_crack_time] overflows, so [get_all_crack_times] raises and
    returns no estimates to order. *)
Theorem long_password_no_crack_times (U : unicode_db) :
  get_all_crack_times U LONG_PASSWORD
  = Raise (OverflowError "integer division result too large for a float").
Proof.
  vm_compute. reflexivity.
Qed.

(** C6: each of the five known names raises on the password of 300
    letters instead of returning. *)
Theorem long_password_known_algorithm_raises (U : unicode_db) :
  Forall
    (fun algo =>
       In algo ALGORITHMS
       /\ estimate_crack_time U LONG_PASSWORD algo
          = Raise
              (OverflowError "integer division result too large for a float"))
    ALGORITHMS.
Proof.
  unfold ALGORITHMS.
  repeat (apply Forall_cons;
          [split; [simpl; tauto | vm_compute; reflexivity] |]).
  apply Forall_nil.
Qed.

(** *** Passwords whose key space fits a float *)

Lemma estimate_crack_time_eq (U : unicode_db) (password : str)
      (algo : string) :
  estimate_crack_time U password algo
  = match dict_get algo ATTACK_SPEEDS with
    | None => Raise (ValueError ("Unknown algorithm: " ++ algo))
    | Some speed =>
        avg <- int_truediv (total_combinations U password) 2 ;;
        Ok {| algorithm := algo;
              attack_speed := speed;
              combinations := total_combinations U password;
              time_seconds := (avg / speed)%Q;
              time_human := _format_time (avg / speed)%Q |}
    end.
Proof.
  unfold estimate_crack_time, total_combinations.
  destruct (dict_get algo ATTACK_SPEEDS); [| reflexivity].
  destruct (is_common U password); reflexivity.
Qed.

Lemma total_combinations_bounds (U : unicode_db) (password : str) :
  0 < total_combinations U password
  /\ total_combinations U password <= 94 ^ Z.of_nat (List.length password).
Proof.
  unfold total_combinations.
  destruct (is_common U password).
  - split; [lia |].
    assert (0 < 94 ^ Z.of_nat (List.length password))
      by (apply Z.pow_pos_nonneg; lia).
    lia.
  - set (b := if charset_size _ =? 0 then 26 else charset_size _).
    assert (Hb : 1 <= b <= 94).
    { subst b.
      destruct (_identify_char_sets U password) as [[] [] [] []];
        vm_compute; split; congruence. }
    split; [apply Z.pow_pos_nonneg; lia | apply Z.pow_le_mono_l; lia].
Qed.

Lemma int_truediv_nonneg (a : Z) (b : positive) (q : Q) :
  0 <= a -> int_truediv a b = Ok q -> (0 <= q)%Q.
Proof.
  unfold int_truediv. intros Ha H.
  destruct (Qle_bool _ _); [discriminate |].
  injection H as <-. unfold Qle. simpl. lia.
Qed.

(** A slower attack never shortens the estimate. *)
Lemma time_seconds_antitone (avg fast slow : Q) :
  (0 <= avg)%Q -> (0 < slow)%Q -> (slow <= fast)%Q ->
  (avg / fast <= avg / slow)%Q.
Proof.
  intros Ha Hs Hf.
  assert (Hfast : (0 < fast)%Q) by (eapply Qlt_le_trans; eassumption).
  apply Qle_shift_div_l; [assumption |].
  setoid_replace (avg / fast * slow)%Q with (avg * slow / fast)%Q
    by (field; intros E; rewrite E in Hfast; discriminate).
  apply Qle_shift_div_r; [assumption |].
  rewrite (Qmult_comm avg slow), (Qmult_comm avg fast).
  now apply Qmult_le_compat_r.
Qed.

(** Whenever the division by 2 fits a float, the five estimates come back
    in the order of [ALGORITHMS] and their times never decrease. *)
Lemma crack_times_ordered (U : unicode_db) (password : str) (avg : Q) :
  int_truediv (total_combinations U password) 2 = Ok avg ->
  exists t1 t2 t3 t4 t5,
    get_all_crack_times U password = Ok [t1; t2; t3; t4; t5]
    /\ map algorithm [t1; t2; t3; t4; t5] = ALGORITHMS
    /\ (time_seconds t1 <= time_seconds t2)%Q
    /\ (time_seconds t2 <= time_seconds t3)%Q
    /\ (time_seconds t3 <= time_seconds t4)%Q
    /\ (time_seconds t4 <= time_seconds t5)%Q.
Proof.
  intros H.
  assert (Havg : (0 <= avg)%Q).
  { apply (int_truediv_nonneg _ _ _ (Z.lt_le_incl _ _
             (proj1 (total_combinations_bounds U password))) H). }
  unfold get_all_crack_times, ALGORITHMS, comprehension.
  rewrite !estimate_crack_time_eq, H. simpl.
  do 5 eexists. split; [reflexivity |]. split; [reflexivity |].
  simpl. repeat split; apply time_seconds_antitone; try assumption;
    vm_compute; congruence.
Qed.

(** Up to 156 characters the key space always fits. *)
Lemma short_password_fits (U : unicode_db) (password : str) :
  (List.length password <= 156)%nat ->
  exists avg, int_truediv (total_combinations U password) 2 = Ok avg.
Proof.
  intros Hlen.
  destruct (total_combinations_bounds U password) as [Hpos Hle].
  assert (Hmax : total_combinations U password <= 94 ^ 156).
  { eapply Z.le_trans; [exact Hle |]. apply Z.pow_le_mono_r; lia. }
  unfold int_truediv.
  destruct (Qle_bool _ _) eqn:E; [| eexists; reflexivity].
  exfalso. apply Qle_bool_iff in E.
  rewrite Qabs_pos in E by (unfold Qle; simpl; lia).
  unfold Qle in E. simpl in E.
  assert (B : 94 ^ 156 * 1 < DBL_OVERFLOW * 2) by (vm_compute; reflexivity).
  lia.
Qed.

(** Each known name returns on such a password. *)
Lemma known_algorithm_returns (U : unicode_db) (password : str)
      (algo : string) (avg : Q) :
  int_truediv (total_combinations U password) 2 = Ok avg ->
  In algo ALGORITHMS ->
  exists t, estimate_crack_time U password algo = Ok t.
Proof.
  intros H Hin. rewrite estimate_crack_time_eq, H.
  destruct (known_algorithm algo Hin) as [speed [-> _]].
  eexists. reflexivity.
Qed.

(** ** Suggestions *)

Lemma append_if_nil (c : bool) (m : string) (l : list string) :
  append_if c m l = [] <-> c = false /\ l = [].
Proof.
  unfold append_if. destruct c.
  - split; [| intros [E _]; discriminate].
    destruct l; discriminate.
  - tauto.
Qed.

Lemma In_append_if (x : string) (c : bool) (m : string) (l : list string) :
  In x (append_if c m l) <-> In x l \/ (c = true /\ x = m).
Proof.
  unfold append_if. destruct c.
  - rewrite in_app_iff. simpl. intuition congruence.
  - intuition congruence.
Qed.

(** Which messages the rule-based part holds, and when. *)
Lemma In_fired_suggestions (U : unicode_db) (password : str) (m : string) :
  In m (fired_suggestions U password) <->
  ((List.length password <? 12)%nat = true
   /\ m = MSG_LENGTH_12 (List.length password))
  \/ ((List.length password <? 12)%nat = false
      /\ (List.length password <? 16)%nat = true
      /\ m = MSG_LENGTH_16 (List.length password))
  \/ (uppercase (_identify_char_sets U password) = false
      /\ m = MSG_UPPERCASE)
  \/ (lowercase (_identify_char_sets U password) = false
      /\ m = MSG_LOWERCASE)
  \/ (digits (_identify_char_sets U password) = false /\ m = MSG_DIGITS)
  \/ (special (_identify_char_sets U password) = false /\ m = MSG_SPECIAL)
  \/ (is_common U password = true /\ m = MSG_COMMON)
  \/ (_has_simple_patterns U password = true /\ m = MSG_PATTERNS)
  \/ (_has_repeated_chars password = true /\ m = MSG_REPEATED)
  \/ (((4 <=? List.length password)%nat && isalpha U password)%bool = true
      /\ m = MSG_DICTIONARY).
Proof.
  unfold fired_suggestions. rewrite !In_append_if, !negb_true_iff.
  destruct (List.length password <? 12)%nat;
    [| destruct (List.length password <? 16)%nat]; simpl;
    intuition congruence.
Qed.

Lemma fired_suggestions_nil (U : unicode_db) (password : str) :
  fired_suggestions U password = [] <-> excellent_conditions U password = true.
Proof.
  unfold fired_suggestions, excellent_conditions, all_four_classes.
  rewrite !append_if_nil, !andb_true_iff, !negb_true_iff, !negb_false_iff.
  destruct (Nat.ltb_spec (List.length password) 12) as [L12 | L12];
    [| destruct (Nat.ltb_spec (List.length password) 16) as [L16 | L16]];
    destruct (Nat.leb_spec 16 (List.length password)) as [G16 | G16];
    try lia; simpl; intuition congruence.
Qed.

(** The two final tests of [get_enhancement_suggestions] in one equation. *)
Lemma get_enhancement_suggestions_eq (U : unicode_db) (password : str) :
  get_enhancement_suggestions U password
  = if excellent_conditions U password then [MSG_EXCELLENT]
    else fired_suggestions U password ++ BEST_PRACTICES.
Proof.
  unfold get_enhancement_suggestions.
  pose proof (fired_suggestions_nil U password) as N.
  destruct (fired_suggestions U password) as [| m l] eqn:F.
  - rewrite (proj1 N eq_refl). reflexivity.
  - destruct (excellent_conditions U password).
    + destruct N as [_ N]. discriminate (N eq_refl).
    + reflexivity.
Qed.

(** The texts are pairwise different where it matters. *)
Ltac different_text :=
  unfold MSG_LENGTH_12, MSG_LENGTH_16, MSG_UPPERCASE, MSG_LOWERCASE,
    MSG_DIGITS, MSG_SPECIAL, MSG_COMMON, MSG_PATTERNS, MSG_REPEATED,
    MSG_DICTIONARY, MSG_EXCELLENT;
  simpl; discriminate.

Lemma fired_is_no_best_practice (U : unicode_db) (password : str)
      (m : string) :
  In m (fired_suggestions U password) -> ~ In m BEST_PRACTICES.
Proof.
  rewrite In_fired_suggestions. unfold BEST_PRACTICES. simpl.
  intros H B.
  repeat match goal with
         | H : _ \/ _ |- _ => destruct H
         | H : _ /\ _ |- _ => destruct H
         end; subst; try contradiction; try different_text.
Qed.

Lemma excellent_not_fired (U : unicode_db) (password : str) :
  ~ In MSG_EXCELLENT (fired_suggestions U password ++ BEST_PRACTICES).
Proof.
  rewrite in_app_iff, In_fired_suggestions. unfold BEST_PRACTICES. simpl.
  intros H.
  repeat match goal with
         | H : _ \/ _ |- _ => destruct H
         | H : _ /\ _ |- _ => destruct H
         end; try contradiction; different_text.
Qed.

(** In the analyzer's own tests: the generator returns the affirmation
    alone exactly when the password has at least 16 characters and all four
    detected classes, is not common, and neither [_has_simple_patterns] nor
    [_has_repeated_chars] nor the alphabetic-word test holds; otherwise the
    affirmation is absent and the list is the fired rules, none of them a
    best-practice tip, followed by the three best-practice tips. *)
Lemma affirmation_iff_excellent (U : unicode_db) (password : str) :
  (get_enhancement_suggestions U password = [MSG_EXCELLENT]
   <-> excellent_conditions U password = true)
  /\ (if excellent_conditions U password
      then get_enhancement_suggestions U password = [MSG_EXCELLENT]
      else ~ In MSG_EXCELLENT (get_enhancement_suggestions U password)
           /\ get_enhancement_suggestions U password
              = fired_suggestions U password ++ BEST_PRACTICES
           /\ List.length BEST_PRACTICES = 3%nat
           /\ fired_suggestions U password <> []
           /\ Forall (fun m => ~ In m BEST_PRACTICES)
                (fired_suggestions U password)).
Proof.
  rewrite get_enhancement_suggestions_eq.
  pose proof (excellent_not_fired U password) as NE.
  pose proof (fired_suggestions_nil U password) as N.
  destruct (excellent_conditions U password).
  - split; [tauto | reflexivity].
  - split.
    + split; [| discriminate].
      intros E. exfalso. apply NE. rewrite E. now left.
    + repeat split; try assumption.
      * intros E. apply N in E. discriminate.
      * apply Forall_forall. intros m. apply fired_is_no_best_practice.
Qed.

(** On every string the regex of [_has_repeated_chars] finds no more than
    three identical characters in a row, and on a string without a newline
    it finds exactly that. *)
Lemma search_repeat3_sound (s : str) :
  search_repeat3 s = true -> spec_three_in_a_row s = true.
Proof.
  induction s as [| a s IH]; [discriminate |].
  destruct s as [| b [| c t]]; try discriminate.
  change (search_repeat3 (a :: b :: c :: t))
    with (negb (N.eqb a 10) && N.eqb a b && N.eqb b c
          || search_repeat3 (b :: c :: t))%bool.
  change (spec_three_in_a_row (a :: b :: c :: t))
    with (N.eqb a b && N.eqb b c || spec_three_in_a_row (b :: c :: t))%bool.
  rewrite !orb_true_iff, !andb_true_iff.
  intros [[[_ H1] H2] | H]; [left; now split | right; now apply IH].
Qed.

Lemma search_repeat3_no_newline (s : str) :
  existsb (N.eqb 10) s = false -> search_repeat3 s = spec_three_in_a_row s.
Proof.
  induction s as [| a s IH]; [reflexivity |].
  intros H. cbn [existsb] in H. apply orb_false_iff in H as [Ha H].
  destruct s as [| b [| c t]]; try reflexivity.
  change (search_repeat3 (a :: b :: c :: t))
    with (negb (N.eqb a 10) && N.eqb a b && N.eqb b c
          || search_repeat3 (b :: c :: t))%bool.
  change (spec_three_in_a_row (a :: b :: c :: t))
    with (N.eqb a b && N.eqb b c || spec_three_in_a_row (b :: c :: t))%bool.
  rewrite N.eqb_sym, Ha. cbn [negb andb].
  f_equal. apply IH. exact H.
Qed.

(** The digit class is the regex for a decimal digit, which is not limited
    to 0-9: a character outside ASCII that Unicode counts as a digit gives
    the password the class. *)
Lemma unicode_digit_detected (U : unicode_db) (c : codepoint)
      (password : str) :
  is_ascii c = false -> uni_isdigit U c = true -> In c password ->
  in_range 48 57 c = false
  /\ digits (_identify_char_sets U password) = true.
Proof.
  intros Ha Hd Hin. split.
  - unfold is_ascii in Ha. apply N.ltb_ge in Ha.
    unfold in_range. apply andb_false_iff. right.
    apply N.leb_gt. lia.
  - cbn [digits _identify_char_sets]. unfold search_class.
    apply existsb_exists. exists c. split; [exact Hin |].
    unfold is_digit. rewrite Ha. exact Hd.
Qed.

(** C7: the generator does not keep to the stated conditions.  The password
    of sixteen characters [Aa1!Aa1!Aa1!Aa1!] followed by three newlines has
    three identical characters in a row, yet neither regex test sees them
    (the dot of the regex does not match a newline), no rule fires, and the
    generator returns the affirmation alone. *)
Theorem newline_run_gets_affirmation (U : unicode_db) :
  spec_three_in_a_row NEWLINE_RUN_PASSWORD = true
  /\ _has_repeated_chars NEWLINE_RUN_PASSWORD = false
  /\ _has_simple_patterns U NEWLINE_RUN_PASSWORD = false
  /\ excellent_conditions U NEWLINE_RUN_PASSWORD = true
  /\ get_enhancement_suggestions U NEWLINE_RUN_PASSWORD = [MSG_EXCELLENT].
Proof.
  assert (E : excellent_conditions U NEWLINE_RUN_PASSWORD = true)
    by (vm_compute; reflexivity).
  split; [vm_compute; reflexivity |].
  split; [vm_compute; reflexivity |].
  split; [vm_compute; reflexivity |].
  split; [exact E |].
  rewrite get_enhancement_suggestions_eq, E. reflexivity.
Qed.

(** C10, as stated, fails: [aaaB] mixes case and its lowercase form has a
    tripled character, yet the original has one too, so the no-repeat bonus
    is withheld and the repeated-character suggestion is emitted. *)
Lemma mixed_case_still_repeats :
  mixes_case ascii_db (py "aaaB") = true
  /\ search_repeat3 (lower ascii_db (py "aaaB")) = true
  /\ _has_repeated_chars (py "aaaB") = true
  /\ (_calculate_strength_score ascii_db (py "aaaB")
      == Qmin 100 (Qmax 0 (score_after_practice ascii_db (py "aaaB"))))%Q
  /\ ~ (_calculate_strength_score ascii_db (py "aaaB")
        == Qmin 100 (Qmax 0 (score_after_practice ascii_db (py "aaaB") + 5)))%Q
  /\ In MSG_REPEATED (get_enhancement_suggestions ascii_db (py "aaaB")).
Proof.
  repeat split; try (vm_compute; reflexivity).
  - vm_compute. discriminate.
  - vm_compute. tauto.
Qed.

(** C10 (amended): the simple-pattern test reads the lowercased password and
    the repeated-character test the original.  For every password whose
    lowercase form has a character three times in a row while the original
    has none, the simple-pattern penalty of 20 and the pattern suggestion
    fire, yet the no-repeat bonus of 5 is granted and no repeated-character
    suggestion is emitted. *)
Theorem case_folded_repeat_only (U : unicode_db) (password : str) :
  search_repeat3 (lower U password) = true ->
  _has_repeated_chars password = false ->
  _has_simple_patterns U password = true
  /\ score_after_patterns U password
     = Qmax 0 (score_after_common U password - 20)
  /\ In MSG_PATTERNS (get_enhancement_suggestions U password)
  /\ _calculate_strength_score U password
     = Qmin 100 (Qmax 0 (score_after_practice U password + 5))
  /\ ~ In MSG_REPEATED (get_enhancement_suggestions U password).
Proof.
  intros Hlow Horig.
  assert (P : _has_simple_patterns U password = true).
  { unfold _has_simple_patterns, patterns. simpl. now rewrite Hlow. }
  assert (X : excellent_conditions U password = false).
  { unfold excellent_conditions. rewrite P. simpl.
    now rewrite !andb_false_r. }
  split; [exact P |].
  split; [unfold score_after_patterns; now rewrite P |].
  rewrite get_enhancement_suggestions_eq, X, !in_app_iff.
  rewrite !In_fired_suggestions.
  split; [| split].
  - left. do 7 right. left. split; [exact P | reflexivity].
  - unfold _calculate_strength_score. now rewrite Horig.
  - unfold BEST_PRACTICES. simpl. intros H.
    repeat match goal with
           | H : _ \/ _ |- _ => destruct H
           | H : _ /\ _ |- _ => destruct H
           end; try contradiction; try congruence; different_text.
Qed.

Lemma case_folded_repeat_only_witness :
  _has_simple_patterns ascii_db (py "AaA") = true
  /\ score_after_patterns ascii_db (py "AaA")
     = Qmax 0 (score_after_common ascii_db (py "AaA") - 20)
  /\ In MSG_PATTERNS (get_enhancement_suggestions ascii_db (py "AaA"))
  /\ _calculate_strength_score ascii_db (py "AaA")
     = Qmin 100 (Qmax 0 (score_after_practice ascii_db (py "AaA") + 5))
  /\ ~ In MSG_REPEATED (get_enhancement_suggestions ascii_db (py "AaA")).
Proof.
  apply (case_folded_repeat_only ascii_db (py "AaA")).
  - vm_compute. reflexivity.
  - vm_compute. reflexivity.
Defined.

(** * Further properties of the analyzer *)

(** ** Entropy and key space *)

Lemma log2_nonneg (c : Z) : 1 <= c -> (0 <= log2 (IZR c))%R.
Proof.
  intros Hc. unfold log2. pose proof ln_2_pos as L2.
  apply Rmult_le_pos; [| left; now apply Rinv_0_lt_compat].
  assert (H1 : (0 < 1)%R) by lra.
  assert (Hc' : (0 < IZR c)%R) by (apply IZR_lt; lia).
  rewrite <- ln_1. apply (proj1 (ln_le_iff 1 (IZR c) H1 Hc')).
  apply IZR_le. exact Hc.
Qed.

Lemma log2_le (c d : Z) :
  1 <= c -> c <= d -> (log2 (IZR c) <= log2 (IZR d))%R.
Proof.
  intros Hc Hd. unfold log2. pose proof ln_2_pos as L2.
  apply Rmult_le_compat_r; [left; now apply Rinv_0_lt_compat |].
  assert (Hc' : (0 < IZR c)%R) by (apply IZR_lt; lia).
  assert (Hd' : (0 < IZR d)%R) by (apply IZR_lt; lia).
  apply (proj1 (ln_le_iff (IZR c) (IZR d) Hc' Hd')).
  now apply IZR_le.
Qed.

Lemma existsb_app_le (f : codepoint -> bool) (p q : str) :
  existsb f p = true -> existsb f (p ++ q) = true.
Proof.
  intros H. rewrite existsb_app, H. reflexivity.
Qed.

Lemma charset_size_app (U : unicode_db) (p q : str) :
  charset_size (_identify_char_sets U p)
  <= charset_size (_identify_char_sets U (p ++ q)).
Proof.
  unfold _identify_char_sets, charset_size, search_class. simpl.
  rewrite !existsb_app.
  destruct (existsb (in_range 97 122) p), (existsb (in_range 65 90) p),
    (existsb (is_digit U) p), (existsb is_special p),
    (existsb (in_range 97 122) q), (existsb (in_range 65 90) q),
    (existsb (is_digit U) q), (existsb is_special q);
    vm_compute; congruence.
Qed.

(** X2: appending characters never lowers the entropy. *)
Theorem entropy_monotone_append (U : unicode_db) (p q : str) :
  (_calculate_entropy U p <= _calculate_entropy U (p ++ q))%R.
Proof.
  unfold _calculate_entropy.
  pose proof (charset_size_app U p q) as Hle.
  pose proof (charset_size_nonneg (_identify_char_sets U p)) as Hp.
  destruct (Z.eqb_spec (charset_size (_identify_char_sets U p)) 0)
    as [E | E];
    destruct (Z.eqb_spec (charset_size (_identify_char_sets U (p ++ q))) 0)
      as [E' | E']; try lia.
  - lra.
  - apply Rmult_le_pos; [apply pos_INR | apply log2_nonneg; lia].
  - apply Rmult_le_compat.
    + apply pos_INR.
    + apply log2_nonneg. lia.
    + apply le_INR. rewrite length_app. lia.
    + apply log2_le; lia.
Qed.

(** ** The score, case by case *)

Lemma special_is_not_alpha (U : unicode_db) (c : codepoint) :
  is_special c = true -> is_alpha U c = false.
Proof.
  unfold is_special. intros H.
  apply existsb_exists in H as [x [Hin Hx]].
  apply N.eqb_eq in Hx. subst x.
  unfold SPECIAL_CHARS in Hin. simpl in Hin.
  repeat (destruct Hin as [<- | Hin]; [reflexivity |]).
  contradiction.
Qed.

Lemma special_excludes_isalpha (U : unicode_db) (password : str) :
  special (_identify_char_sets U password) = true ->
  isalpha U password = false.
Proof.
  simpl. unfold search_class, isalpha. intros H.
  apply existsb_exists in H as [c [Hin Hc]].
  apply andb_false_iff. right.
  destruct (forallb (is_alpha U) password) eqn:F; [| reflexivity].
  rewrite forallb_forall in F. specialize (F c Hin).
  rewrite (special_is_not_alpha U c Hc) in F. discriminate.
Qed.

Lemma entropy_ge_full (U : unicode_db) (password : str) :
  _identify_char_sets U password
  = {| lowercase := true; uppercase := true; digits := true;
       special := true |} ->
  (16 <= List.length password)%nat ->
  entropy_ge U password 80 = true.
Proof.
  intros E Hlen. unfold entropy_ge. rewrite E.
  change (charset_size _) with 94. cbv zeta.
  change (94 =? 0) with false. cbv iota.
  apply Z.leb_le.
  apply Z.le_trans with (94 ^ 16); [vm_compute; discriminate |].
  apply Z.pow_le_mono_r; lia.
Qed.

(** The six length regions the scorer and the generator of suggestions
    distinguish. *)
Lemma length_regions (n : nat) :
  (n < 4 \/ 4 <= n < 6 \/ 6 <= n < 8 \/ 8 <= n < 12 \/ 12 <= n < 16
   \/ 16 <= n)%nat.
Proof.
  lia.
Qed.

Ltac decide_leb n :=
  repeat match goal with
         | |- context [(?k <=? n)%nat] =>
             first [ rewrite (proj2 (Nat.leb_le k n)) by lia
                   | rewrite (proj2 (Nat.leb_gt k n)) by lia ]
         end.

Ltac unfold_score :=
  unfold _calculate_strength_score, score_after_practice,
    score_after_patterns, score_after_common, score_components.

Ltac split_length password :=
  destruct (length_regions (List.length password))
    as [R | [R | [R | [R | [R | R]]]]];
  decide_leb (List.length password).

Ltac split_flags U password :=
  destruct (_identify_char_sets U password) as [a b c d];
  cbn [lowercase uppercase digits special];
  destruct a, b, c, d.

Ltac split_test t :=
  match goal with
  | |- context [t] => destruct t
  | _ => idtac
  end.

Ltac split_entropy U password :=
  match goal with
  | |- context [entropy_ge U password 80] =>
      destruct (entropy_ge U password 80);
      [| destruct (entropy_ge U password 60);
         [| destruct (entropy_ge U password 40);
            [| destruct (entropy_ge U password 28)]]]
  | _ =>
      split_test (entropy_ge U password 40);
      split_test (entropy_ge U password 28)
  end.

(** Splits on the length region, the class flags, the entropy tier and the
    three pattern tests that are still undecided; [fin] closes each case. *)
Ltac score_cases U password fin :=
  split_length password;
  split_flags U password;
  split_entropy U password;
  split_test (is_common U password);
  split_test (_has_simple_patterns U password);
  split_test (_has_repeated_chars password);
  fin.

(** X3: every score is a multiple of 2.5, and it is an integer unless the
    number of detected character classes is odd. *)
Theorem strength_score_grid (U : unicode_db) (password : str) :
  is_integral (_calculate_strength_score U password / 2.5) = true
  /\ (Z.odd (char_type_count (_identify_char_sets U password)) = true
      \/ is_integral (_calculate_strength_score U password) = true).
Proof.
  unfold_score.
  score_cases U password
    ltac:(vm_compute; split; [reflexivity | first [now left | now right]]).
Qed.

Lemma affirmation_iff_conditions (U : unicode_db) (password : str) :
  get_enhancement_suggestions U password = [MSG_EXCELLENT]
  <-> excellent_conditions U password = true.
Proof.
  rewrite get_enhancement_suggestions_eq.
  pose proof (excellent_not_fired U password) as NE.
  destruct (excellent_conditions U password); split; try tauto.
  - intros E. exfalso. apply NE. rewrite E. now left.
  - discriminate.
Qed.

(** X4: the score is 100 exactly when the generator of suggestions answers
    with the affirmation alone: a password has nothing left to improve if
    and only if it has the full score. *)
Theorem perfect_score_iff_affirmation (U : unicode_db) (password : str) :
  (_calculate_strength_score U password == 100)%Q
  <-> get_enhancement_suggestions U password = [MSG_EXCELLENT].
Proof.
  rewrite affirmation_iff_conditions.
  pose proof (entropy_ge_full U password) as HE.
  pose proof (special_excludes_isalpha U password) as HA.
  revert HE HA.
  unfold excellent_conditions, all_four_classes. unfold_score.
  score_cases U password
    ltac:(intros HE HA;
          try rewrite (HA eq_refl);
          try (specialize (HE eq_refl R); discriminate HE);
          vm_compute; split; intros H;
          first [reflexivity | discriminate H]).
Qed.

(** ** Lowercasing ASCII text *)

Lemma lower_ascii (U : unicode_db) (password : str) :
  forallb is_ascii password = true ->
  lower U password = map ascii_lower_char password.
Proof.
  intros H. unfold lower. now rewrite H.
Qed.

Lemma ascii_lower_char_newline (c : codepoint) :
  N.eqb (ascii_lower_char c) 10 = N.eqb c 10.
Proof.
  unfold ascii_lower_char, in_range.
  destruct (N.leb_spec 65 c); simpl; [| reflexivity].
  destruct (N.leb_spec c 90); simpl; [| reflexivity].
  destruct (N.eqb_spec (c + 32) 10), (N.eqb_spec c 10); lia || reflexivity.
Qed.

Lemma search_repeat3_eq (a b c : codepoint) (t : str) :
  search_repeat3 (a :: b :: c :: t)
  = (negb (N.eqb a 10) && N.eqb a b && N.eqb b c
     || search_repeat3 (b :: c :: t))%bool.
Proof.
  reflexivity.
Qed.

(** A tripled character survives lowercasing. *)
Lemma search_repeat3_lower (password : str) :
  search_repeat3 password = true ->
  search_repeat3 (map ascii_lower_char password) = true.
Proof.
  induction password as [| a p IH]; [discriminate |].
  destruct p as [| b [| c t]]; try discriminate.
  rewrite search_repeat3_eq. cbn [map]. rewrite search_repeat3_eq.
  rewrite !orb_true_iff, !andb_true_iff, negb_true_iff.
  intros [[[Ha Hab] Hbc] | H].
  - left. apply N.eqb_eq in Hab, Hbc. subst b c.
    rewrite ascii_lower_char_newline, Ha, N.eqb_refl. auto.
  - right. apply IH. exact H.
Qed.

Lemma is_special_lower (c : codepoint) :
  is_special (ascii_lower_char c) = is_special c.
Proof.
  unfold ascii_lower_char, in_range.
  destruct (N.leb_spec 65 c); simpl; [| reflexivity].
  destruct (N.leb_spec c 90); simpl; [| reflexivity].
  unfold is_special, SPECIAL_CHARS. simpl.
  repeat match goal with
         | |- context [N.eqb ?x ?y] =>
             destruct (N.eqb_spec x y); [lia |]
         end.
  reflexivity.
Qed.

Lemma existsb_special_lower (password : str) :
  existsb is_special (map ascii_lower_char password)
  = existsb is_special password.
Proof.
  induction password as [| c p IH]; [reflexivity |].
  cbn [map existsb]. now rewrite is_special_lower, IH.
Qed.

(** No common password is longer than 8 characters, holds a special
    character or triples a character. *)
Lemma common_password_facts (w : str) :
  In w COMMON_PASSWORDS ->
  (List.length w <= 8)%nat
  /\ existsb is_special w = false
  /\ search_repeat3 w = false.
Proof.
  assert (F : forallb
                (fun w => (List.length w <=? 8)%nat
                          && negb (existsb is_special w)
                          && negb (search_repeat3 w))%bool
                COMMON_PASSWORDS = true) by (vm_compute; reflexivity).
  rewrite forallb_forall in F. intros Hin. specialize (F w Hin).
  rewrite !andb_true_iff, !negb_true_iff in F.
  destruct F as [[L S] T]. apply Nat.leb_le in L. auto.
Qed.

Lemma entropy_ge_small (U : unicode_db) (password : str) (k : Z) :
  special (_identify_char_sets U password) = false ->
  (List.length password <= 8)%nat ->
  60 <= k ->
  entropy_ge U password k = false.
Proof.
  intros Hs Hlen Hk. unfold entropy_ge.
  destruct (_identify_char_sets U password) as [a b c d].
  cbn [special] in Hs. subst d.
  set (cs := charset_size _).
  assert (Hcs : 0 <= cs <= 62)
    by (subst cs; destruct a, b, c; vm_compute; split; congruence).
  destruct (Z.eqb_spec cs 0) as [_ | Hne].
  - apply Z.leb_gt. lia.
  - apply Z.leb_gt.
    apply Z.le_lt_trans with (62 ^ 8).
    + apply Z.le_trans with (62 ^ Z.of_nat (List.length password)).
      * apply Z.pow_le_mono_l. lia.
      * apply Z.pow_le_mono_r; lia.
    + apply Z.lt_le_trans with (2 ^ 60); [vm_compute; reflexivity |].
      apply Z.pow_le_mono_r; lia.
Qed.

(** X5: every ASCII password whose lowercase form is a common password,
    whatever its capitalisation, scores exactly 5 and is Very Weak. *)
Theorem common_password_scores_5 (U : unicode_db) (password : str) :
  forallb is_ascii password = true ->
  is_common U password = true ->
  (_calculate_strength_score U password == 5)%Q
  /\ _determine_strength_level (_calculate_strength_score U password)
     = "Very Weak"%string.
Proof.
  intros Hascii Hcommon.
  assert (Hw : In (map ascii_lower_char password) COMMON_PASSWORDS).
  { unfold is_common in Hcommon. rewrite (lower_ascii U _ Hascii) in Hcommon.
    apply existsb_exists in Hcommon as [w [Hin Heq]].
    unfold str_eqb in Heq.
    destruct (list_eq_dec N.eq_dec (map ascii_lower_char password) w)
      as [-> | _]; [exact Hin | discriminate]. }
  apply common_password_facts in Hw as [Hlen [Hspec Hrep]].
  rewrite length_map in Hlen. rewrite existsb_special_lower in Hspec.
  assert (Hrep' : _has_repeated_chars password = false).
  { unfold _has_repeated_chars.
    destruct (search_repeat3 password) eqn:E; [| reflexivity].
    apply search_repeat3_lower in E. congruence. }
  assert (Hs : special (_identify_char_sets U password) = false)
    by exact Hspec.
  pose proof (entropy_ge_small U password 80 Hs Hlen ltac:(lia)) as E80.
  pose proof (entropy_ge_small U password 60 Hs Hlen ltac:(lia)) as E60.
  unfold_score. rewrite Hcommon, Hrep', E80, E60.
  split_length password; try (exfalso; lia).
  all: revert Hs; split_flags U password; intros Hs; try discriminate Hs.
  all: split_entropy U password.
  all: split_test (_has_simple_patterns U password).
  all: vm_compute; split; reflexivity.
Qed.

Lemma common_password_scores_5_witness :
  (_calculate_strength_score ascii_db (py "TrustNo1") == 5)%Q
  /\ _determine_strength_level
       (_calculate_strength_score ascii_db (py "TrustNo1"))
     = "Very Weak"%string.
Proof.
  apply (common_password_scores_5 ascii_db (py "TrustNo1")).
  - vm_compute. reflexivity.
  - vm_compute. reflexivity.
Defined.

(** X6: in an ASCII password a character tripled in a row always counts
    twice: the simple-pattern test fires with the repeated-character test, so
    both suggestions are emitted, the penalty of 20 applies, the no-repeat
    bonus is lost and the score cannot exceed 75. *)
Theorem repeated_chars_cost (U : unicode_db) (password : str) :
  forallb is_ascii password = true ->
  _has_repeated_chars password = true ->
  _has_simple_patterns U password = true
  /\ In MSG_PATTERNS (get_enhancement_suggestions U password)
  /\ In MSG_REPEATED (get_enhancement_suggestions U password)
  /\ (_calculate_strength_score U password <= 75)%Q.
Proof.
  intros Hascii Hrep.
  assert (P : _has_simple_patterns U password = true).
  { unfold _has_simple_patterns, patterns. cbn [existsb].
    rewrite (lower_ascii U _ Hascii).
    unfold _has_repeated_chars in Hrep.
    now rewrite (search_repeat3_lower _ Hrep). }
  assert (X : excellent_conditions U password = false).
  { unfold excellent_conditions. rewrite P. simpl.
    now rewrite !andb_false_r. }
  split; [exact P |].
  rewrite get_enhancement_suggestions_eq, X, !in_app_iff.
  rewrite !In_fired_suggestions.
  split; [left; do 7 right; left; split; [exact P | reflexivity] |].
  split; [left; do 8 right; left; split; [exact Hrep | reflexivity] |].
  unfold_score. rewrite P, Hrep.
  score_cases U password ltac:(vm_compute; discriminate).
Qed.

Lemma repeated_chars_cost_witness :
  _has_simple_patterns ascii_db (py "Xk9#mQ2$vLLL7!pR4") = true
  /\ In MSG_PATTERNS
       (get_enhancement_suggestions ascii_db (py "Xk9#mQ2$vLLL7!pR4"))
  /\ In MSG_REPEATED
       (get_enhancement_suggestions ascii_db (py "Xk9#mQ2$vLLL7!pR4"))
  /\ (_calculate_strength_score ascii_db (py "Xk9#mQ2$vLLL7!pR4") <= 75)%Q.
Proof.
  apply (repeated_chars_cost ascii_db (py "Xk9#mQ2$vLLL7!pR4")).
  - vm_compute. reflexivity.
  - vm_compute. reflexivity.
Defined.

(** ** Crack times, in and out of range *)

Lemma int_truediv_overflow (a : Z) :
  0 < a ->
  (2 * DBL_OVERFLOW <= a <->
   int_truediv a 2
   = Raise (OverflowError "integer division result too large for a float")).
Proof.
  intros Ha. unfold int_truediv.
  rewrite Qabs_pos by (unfold Qle; simpl; lia).
  generalize DBL_OVERFLOW. intros D.
  destruct (Qle_bool (inject_Z D) (a # 2)) eqn:E.
  - apply Qle_bool_iff in E. unfold Qle in E. simpl in E.
    split; [reflexivity | lia].
  - apply Qle_bool_false in E. unfold Qlt in E. simpl in E.
    split; [lia | discriminate].
Qed.

Lemma int_truediv_fits (a : Z) :
  0 < a -> a < 2 * DBL_OVERFLOW -> int_truediv a 2 = Ok (a # 2)%Q.
Proof.
  intros Ha Hlt. pose proof (int_truediv_overflow a Ha) as O.
  unfold int_truediv in *.
  destruct (Qle_bool _ _); [| reflexivity].
  destruct O as [_ O]. specialize (O eq_refl). lia.
Qed.

(** X7: what [estimate_crack_time] can do.  It returns only for one of the
    five known names and a key space below the float range, and then reports
    that name, its table speed, the key space, a time above zero and the
    text of that time; an unknown name raises [ValueError] whatever the
    password; a known name with a key space of at least [2^1025 - 2^971]
    raises [OverflowError]. *)
Theorem estimate_crack_time_outcome (U : unicode_db) (password : str)
        (algo : string) :
  match estimate_crack_time U password algo with
  | Ok t =>
      In algo ALGORITHMS
      /\ algorithm t = algo
      /\ dict_get algo ATTACK_SPEEDS = Some (attack_speed t)
      /\ combinations t = total_combinations U password
      /\ total_combinations U password < 2 * DBL_OVERFLOW
      /\ (0 < time_seconds t)%Q
      /\ time_human t = _format_time (time_seconds t)
  | Raise (ValueError msg) =>
      ~ In algo ALGORITHMS /\ msg = ("Unknown algorithm: " ++ algo)%string
  | Raise (OverflowError _) =>
      In algo ALGORITHMS /\ 2 * DBL_OVERFLOW <= total_combinations U password
  end.
Proof.
  rewrite estimate_crack_time_eq.
  destruct (total_combinations_bounds U password) as [Hpos _].
  destruct (in_dec string_dec algo ALGORITHMS) as [Hin | Hnin].
  - destruct (known_algorithm algo Hin) as [speed [E Hs]]. rewrite E.
    destruct (Z_lt_le_dec (total_combinations U password) (2 * DBL_OVERFLOW))
      as [L | L].
    + rewrite (int_truediv_fits _ Hpos L).
      cbn [bind algorithm attack_speed combinations time_seconds time_human].
      assert (Hsp : (0 < speed)%Q)
        by (apply Qlt_le_trans with 1000%Q; [reflexivity | exact Hs]).
      split; [exact Hin |]. split; [reflexivity |].
      split; [reflexivity |]. split; [reflexivity |].
      split; [exact L |]. split; [| reflexivity].
      apply Qlt_shift_div_l; [exact Hsp |]. rewrite Qmult_0_l.
      unfold Qlt. simpl. lia.
    + rewrite (proj1 (int_truediv_overflow _ Hpos) L).
      cbn [bind]. split; assumption.
  - rewrite (unknown_algorithm algo Hnin). split; [exact Hnin | reflexivity].
Qed.

(** X8: for every password of at most 156 characters the five estimates
    are returned, in the order plaintext, md5, sha256, bcrypt, argon2, over
    one key space, and their times never decrease along that order. *)
Theorem short_password_crack_times (U : unicode_db) (password : str) :
  (List.length password <= 156)%nat ->
  exists t1 t2 t3 t4 t5,
    get_all_crack_times U password = Ok [t1; t2; t3; t4; t5]
    /\ map algorithm [t1; t2; t3; t4; t5] = ALGORITHMS
    /\ Forall (fun t => combinations t = total_combinations U password)
         [t1; t2; t3; t4; t5]
    /\ (time_seconds t1 <= time_seconds t2)%Q
    /\ (time_seconds t2 <= time_seconds t3)%Q
    /\ (time_seconds t3 <= time_seconds t4)%Q
    /\ (time_seconds t4 <= time_seconds t5)%Q.
Proof.
  intros Hlen.
  destruct (short_password_fits U password Hlen) as [avg H].
  assert (Havg : (0 <= avg)%Q).
  { apply (int_truediv_nonneg _ _ _ (Z.lt_le_incl _ _
             (proj1 (total_combinations_bounds U password))) H). }
  unfold get_all_crack_times, ALGORITHMS, comprehension.
  rewrite !estimate_crack_time_eq, H. simpl.
  do 5 eexists. split; [reflexivity |]. split; [reflexivity |].
  split; [repeat constructor |].
  simpl. repeat split; apply time_seconds_antitone; try assumption;
    vm_compute; congruence.
Qed.

Lemma short_password_crack_times_witness :
  exists t1 t2 t3 t4 t5,
    get_all_crack_times ascii_db (py "MyP@ssw0rd") = Ok [t1; t2; t3; t4; t5]
    /\ map algorithm [t1; t2; t3; t4; t5] = ALGORITHMS
    /\ Forall
         (fun t =>
            combinations t = total_combinations ascii_db (py "MyP@ssw0rd"))
         [t1; t2; t3; t4; t5]
    /\ (time_seconds t1 <= time_seconds t2)%Q
    /\ (time_seconds t2 <= time_seconds t3)%Q
    /\ (time_seconds t3 <= time_seconds t4)%Q
    /\ (time_seconds t4 <= time_seconds t5)%Q.
Proof.
  apply (short_password_crack_times ascii_db (py "MyP@ssw0rd")).
  vm_compute. lia.
Defined.

(** X9: for every password of 309 characters or more that is not a common
    password, all crack-time estimation fails with [OverflowError]: each of
    the five names raises, and so does [get_all_crack_times]. *)
Theorem long_password_overflows (U : unicode_db) (password : str) :
  (309 <= List.length password)%nat ->
  is_common U password = false ->
  get_all_crack_times U password
  = Raise (OverflowError "integer division result too large for a float")
  /\ Forall
       (fun algo =>
          estimate_crack_time U password algo
          = Raise
              (OverflowError "integer division result too large for a float"))
       ALGORITHMS.
Proof.
  intros Hlen Hc.
  assert (Hbig : 2 * DBL_OVERFLOW <= total_combinations U password).
  { unfold total_combinations. rewrite Hc.
    set (b := if charset_size _ =? 0 then 26 else charset_size _).
    assert (Hb : 10 <= b).
    { subst b.
      destruct (_identify_char_sets U password) as [[] [] [] []];
        vm_compute; congruence. }
    apply Z.le_trans with (10 ^ 309); [vm_compute; discriminate |].
    apply Z.le_trans with (10 ^ Z.of_nat (List.length password)).
    - apply Z.pow_le_mono_r; lia.
    - apply Z.pow_le_mono_l; lia. }
  apply int_truediv_overflow in Hbig;
    [| apply total_combinations_bounds].
  split.
  - unfold get_all_crack_times, ALGORITHMS, comprehension.
    rewrite estimate_crack_time_eq, Hbig. reflexivity.
  - unfold ALGORITHMS.
    repeat (apply Forall_cons;
            [rewrite estimate_crack_time_eq, Hbig; reflexivity |]).
    apply Forall_nil.
Qed.

Lemma long_password_overflows_witness :
  get_all_crack_times ascii_db (repeat 55%N 309)
  = Raise (OverflowError "integer division result too large for a float")
  /\ Forall
       (fun algo =>
          estimate_crack_time ascii_db (repeat 55%N 309) algo
          = Raise
              (OverflowError "integer division result too large for a float"))
       ALGORITHMS.
Proof.
  apply (long_password_overflows ascii_db (repeat 55%N 309)).
  - rewrite repeat_length. apply le_n.
  - vm_compute. reflexivity.
Defined.

(** ** The text of a duration *)

Lemma Qlt_bool_true (x y : Q) : Qlt_bool x y = true -> (x < y)%Q.
Proof.
  unfold Qlt_bool. intros H. apply negb_true_iff in H.
  now apply Qle_bool_false.
Qed.

Lemma Qlt_bool_false (x y : Q) : Qlt_bool x y = false -> (y <= x)%Q.
Proof.
  unfold Qlt_bool. intros H. apply negb_false_iff in H.
  now apply Qle_bool_iff.
Qed.

(** A duration between [lo] and [hi] seconds, counted in units of [k]
    seconds. *)
Lemma scaled_range (s k lo hi bound : Q) :
  (0 < k)%Q -> (k <= lo)%Q -> (hi <= bound * k)%Q ->
  (lo <= s)%Q -> (s < hi)%Q ->
  (1 <= s / k /\ s / k <= bound)%Q.
Proof.
  intros Hk Hlo Hhi Hs1 Hs2.
  split.
  - apply Qle_shift_div_l; [exact Hk |]. rewrite Qmult_1_l.
    now apply Qle_trans with lo.
  - apply Qle_shift_div_r; [exact Hk |].
    apply Qlt_le_weak. now apply Qlt_le_trans with hi.
Qed.

(** X10: the text of a finite duration.  It is Instant exactly below one
    second.  From one second on, the number handed to the format is the
    duration divided by the size of the unit named after it, the unit is
    fixed by the range of the duration, and the number is at least 1 and at
    most the count of that unit in the next one: 60 for minutes, 24 for
    hours, 365 for days, 1000 for years and for thousand, million and
    billion years (the bound itself is not excluded, and the text may show
    it after rounding to two decimals); seconds are handed over as they are,
    and trillion years, in scientific notation, have no upper bound. *)
Theorem format_time_ranges (seconds : Q) :
  match _format_time seconds with
  | Instant => (seconds < 1)%Q
  | Fixed2 value unit =>
      (unit = "seconds"%string
       /\ value = seconds
       /\ (1 <= seconds /\ seconds < 60)%Q)
      \/ (unit = "minutes"%string
          /\ value = (seconds / 60)%Q
          /\ (60 <= seconds /\ seconds < 3600)%Q
          /\ (1 <= value /\ value <= 60)%Q)
      \/ (unit = "hours"%string
          /\ value = (seconds / 3600)%Q
          /\ (3600 <= seconds /\ seconds < 86400)%Q
          /\ (1 <= value /\ value <= 24)%Q)
      \/ (unit = "days"%string
          /\ value = (seconds / 86400)%Q
          /\ (86400 <= seconds /\ seconds < 31536000)%Q
          /\ (1 <= value /\ value <= 365)%Q)
      \/ (unit = "years"%string
          /\ value = (seconds / 31536000)%Q
          /\ (31536000 <= seconds /\ seconds < (31536000 * 1000))%Q
          /\ (1 <= value /\ value <= 1000)%Q)
      \/ (unit = "thousand years"%string
          /\ value = (seconds / (31536000 * 1000))%Q
          /\ ((31536000 * 1000) <= seconds /\ seconds < (31536000 * 1000000))%Q
          /\ (1 <= value /\ value <= 1000)%Q)
      \/ (unit = "million years"%string
          /\ value = (seconds / (31536000 * 1e6))%Q
          /\ ((31536000 * 1000000) <= seconds /\ seconds < (31536000 * 1e9))%Q
          /\ (1 <= value /\ value <= 1000)%Q)
      \/ (unit = "billion years"%string
          /\ value = (seconds / (31536000 * 1e9))%Q
          /\ ((31536000 * 1e9) <= seconds /\ seconds < (31536000 * 1e12))%Q
          /\ (1 <= value /\ value <= 1000)%Q)
  | Sci2 value unit =>
      unit = "trillion years"%string
      /\ value = (seconds / (31536000 * 1e12))%Q
      /\ (31536000 * 1e12 <= seconds)%Q
      /\ (1 <= value)%Q
  end.
Proof.
  unfold _format_time.
  destruct (Qlt_bool seconds 1) eqn:T0; [now apply Qlt_bool_true |].
  apply Qlt_bool_false in T0.
  destruct (Qlt_bool seconds 60) eqn:T1.
  { apply Qlt_bool_true in T1. left.
    split; [reflexivity |]. split; [reflexivity |]. split; assumption. }
  apply Qlt_bool_false in T1.
  destruct (Qlt_bool seconds 3600) eqn:T2.
  { apply Qlt_bool_true in T2.
    assert (R : (1 <= seconds / 60 /\ seconds / 60 <= 60)%Q)
      by (apply scaled_range with (lo := 60%Q) (hi := 3600%Q);
          [ reflexivity | vm_compute; discriminate | vm_compute; discriminate
          | exact T1 | exact T2 ]).
    do 1 right; left; split; [reflexivity |]. split; [reflexivity |].
    split; [split; [exact T1 | exact T2] | exact R]. }
  apply Qlt_bool_false in T2.
  destruct (Qlt_bool seconds 86400) eqn:T3.
  { apply Qlt_bool_true in T3.
    assert (R : (1 <= seconds / 3600 /\ seconds / 3600 <= 24)%Q)
      by (apply scaled_range with (lo := 3600%Q) (hi := 86400%Q);
          [ reflexivity | vm_compute; discriminate | vm_compute; discriminate
          | exact T2 | exact T3 ]).
    do 2 right; left; split; [reflexivity |]. split; [reflexivity |].
    split; [split; [exact T2 | exact T3] | exact R]. }
  apply Qlt_bool_false in T3.
  destruct (Qlt_bool seconds 31536000) eqn:T4.
  { apply Qlt_bool_true in T4.
    assert (R : (1 <= seconds / 86400 /\ seconds / 86400 <= 365)%Q)
      by (apply scaled_range with (lo := 86400%Q) (hi := 31536000%Q);
          [ reflexivity | vm_compute; discriminate | vm_compute; discriminate
          | exact T3 | exact T4 ]).
    do 3 right; left; split; [reflexivity |]. split; [reflexivity |].
    split; [split; [exact T3 | exact T4] | exact R]. }
  apply Qlt_bool_false in T4.
  destruct (Qlt_bool seconds (31536000 * 1000)) eqn:T5.
  { apply Qlt_bool_true in T5.
    assert (R : (1 <= seconds / 31536000 /\ seconds / 31536000 <= 1000)%Q)
      by (apply scaled_range with (lo := 31536000%Q) (hi := (31536000 * 1000)%Q);
          [ reflexivity | vm_compute; discriminate | vm_compute; discriminate
          | exact T4 | exact T5 ]).
    do 4 right; left; split; [reflexivity |]. split; [reflexivity |].
    split; [split; [exact T4 | exact T5] | exact R]. }
  apply Qlt_bool_false in T5.
  destruct (Qlt_bool seconds (31536000 * 1000000)) eqn:T6.
  { apply Qlt_bool_true in T6.
    assert (R : (1 <= seconds / (31536000 * 1000) /\ seconds / (31536000 * 1000) <= 1000)%Q)
      by (apply scaled_range with (lo := (31536000 * 1000)%Q) (hi := (31536000 * 1000000)%Q);
          [ reflexivity | vm_compute; discriminate | vm_compute; discriminate
          | exact T5 | exact T6 ]).
    do 5 right; left; split; [reflexivity |]. split; [reflexivity |].
    split; [split; [exact T5 | exact T6] | exact R]. }
  apply Qlt_bool_false in T6.
  destruct (Qlt_bool seconds (31536000 * 1e9)) eqn:T7.
  { apply Qlt_bool_true in T7.
    assert (R : (1 <= seconds / (31536000 * 1e6) /\ seconds / (31536000 * 1e6) <= 1000)%Q)
      by (apply scaled_range with (lo := (31536000 * 1000000)%Q) (hi := (31536000 * 1e9)%Q);
          [ reflexivity | vm_compute; discriminate | vm_compute; discriminate
          | exact T6 | exact T7 ]).
    do 6 right; left; split; [reflexivity |]. split; [reflexivity |].
    split; [split; [exact T6 | exact T7] | exact R]. }
  apply Qlt_bool_false in T7.
  destruct (Qlt_bool seconds (31536000 * 1e12)) eqn:T8.
  { apply Qlt_bool_true in T8.
    assert (R : (1 <= seconds / (31536000 * 1e9) /\ seconds / (31536000 * 1e9) <= 1000)%Q)
      by (apply scaled_range with (lo := (31536000 * 1e9)%Q) (hi := (31536000 * 1e12)%Q);
          [ reflexivity | vm_compute; discriminate | vm_compute; discriminate
          | exact T7 | exact T8 ]).
    do 7 right; split; [reflexivity |]. split; [reflexivity |].
    split; [split; [exact T7 | exact T8] | exact R]. }
  apply Qlt_bool_false in T8.
  split; [reflexivity |]. split; [reflexivity |]. split; [exact T8 |].
  apply Qle_shift_div_l; [reflexivity |]. now rewrite Qmult_1_l.
Qed.

From Stdlib Require Import Permutation Sorted.


(** * Properties of the HTTP layer *)

(** ** Analysis endpoint *)

Lemma truncate_hash_length (v : str) :
  List.length (truncate_hash v)
  = if (60 <? List.length v)%nat then 63%nat else List.length v.
Proof.
  unfold truncate_hash.
  destruct (Nat.ltb_spec 60 (List.length v)) as [H | H]; [| reflexivity].
  rewrite length_app, firstn_length_le by lia. reflexivity.
Qed.

(** The five estimates exist as soon as the key space fits a float. *)
Lemma crack_times_when_fits (U : unicode_db) (password : str) :
  total_combinations U password < 2 * DBL_OVERFLOW ->
  exists cts,
    get_all_crack_times U password = Ok cts
    /\ map algorithm cts = ALGORITHMS.
Proof.
  intros Hfit.
  destruct (total_combinations_bounds U password) as [Hpos _].
  destruct (crack_times_ordered U password _
              (int_truediv_fits _ Hpos Hfit))
    as [t1 [t2 [t3 [t4 [t5 [E [M _]]]]]]].
  eexists. split; [exact E | exact M].
Qed.

Lemma crack_times_when_overflow (U : unicode_db) (password : str) :
  2 * DBL_OVERFLOW <= total_combinations U password ->
  get_all_crack_times U password
  = Raise (OverflowError "integer division result too large for a float").
Proof.
  intros Hbig.
  apply int_truediv_overflow in Hbig; [| apply total_combinations_bounds].
  unfold get_all_crack_times, ALGORITHMS, comprehension.
  rewrite estimate_crack_time_eq, Hbig. reflexivity.
Qed.

(** The two tests on the request body that the analysis and the
    improvement endpoint share. *)
Lemma with_password_outcome {A : Type} (error_text : json -> string)
      (on_text : str -> api_response A) (body : get_json_t) :
  (exists data text,
      body = Parsed data
      /\ py_subscript (py "password") data = Some (JStr text)
      /\ text <> []
      /\ with_password error_text on_text body = on_text text)
  \/ (with_password error_text on_text body
       = Failure 400 "Password is required"
       /\ exists data,
            body = Parsed data
            /\ (truthy data = false
                \/ py_contains (py "password") data = Some false))
  \/ (with_password error_text on_text body
       = Failure 400 "Password cannot be empty"
       /\ exists data v,
            body = Parsed data
            /\ py_subscript (py "password") data = Some v
            /\ truthy v = false)
  \/ (exists message,
         body = GetJsonRaises message
         /\ with_password error_text on_text body = Failure 500 message)
  \/ (exists data,
         body = Parsed data
         /\ with_password error_text on_text body
            = Failure 500 (error_text data)
         /\ truthy data = true
         /\ (py_contains (py "password") data = None
             \/ (py_contains (py "password") data = Some true
                 /\ py_subscript (py "password") data = None)
             \/ exists v,
                  py_subscript (py "password") data = Some v
                  /\ truthy v = true
                  /\ forall text, v <> JStr text)).
Proof.
  destruct body as [data | message];
    [| do 3 right; left; exists message; split; reflexivity].
  unfold with_password.
  destruct (truthy data) eqn:T; cbn [negb];
    [| right; left; split; [reflexivity | exists data; auto]].
  destruct (py_contains (py "password") data) as [[|] |] eqn:C;
    [| right; left; split; [reflexivity | exists data; auto]
     | do 4 right; exists data; repeat split; auto].
  destruct (py_subscript (py "password") data) as [v |] eqn:S;
    [| do 4 right; exists data; repeat split; auto].
  destruct (truthy v) eqn:Tv; cbn [negb];
    [| do 2 right; left; split; [reflexivity | exists data, v; auto]].
  destruct v as [| b | n | f | text | items | entries];
    try (do 4 right; exists data; repeat split; auto;
         right; right; eexists; repeat split; eauto; discriminate).
  left. exists data, text. repeat split; auto.
  intros ->. discriminate Tv.
Qed.

(** X11: the answers of the analysis endpoint, for every outcome of
    [request.get_json()].  It answers 200 exactly when the body is an object
    whose password is a non-empty string, the key space of that password
    fits a float and the hashing backend returns; the response then lists the
    five algorithms in order, carries the suggestions of the analyzer and
    shows every hash under its key with at most 63 characters.  It answers
    400 when the parsed body is false (null, 0, empty) or lacks the key, and
    when the password itself is false.  Everything else is a 500: a body
    that [get_json] refuses, a body or a password of another type, a key
    space too large (with the message of the overflow, whatever the hashing
    backend does) and a failure of the hashing backend alone. *)
Theorem analyze_password_outcome
        (U : unicode_db) (round2 : R -> R)
        (get_hash_comparison : str -> result (list (string * str)))
        (error_text : json -> string) (body : get_json_t) :
  match analyze_password U round2 get_hash_comparison error_text body with
  | Success d =>
      exists data password hashes,
        body = Parsed data
        /\ py_subscript (py "password") data = Some (JStr password)
        /\ password <> []
        /\ total_combinations U password < 2 * DBL_OVERFLOW
        /\ get_hash_comparison password = Ok hashes
        /\ map cv_algorithm (an_crack_times d) = ALGORITHMS
        /\ an_suggestions d = get_enhancement_suggestions U password
        /\ map fst (an_hashes d) = map fst hashes
        /\ Forall (fun kv => (List.length (snd kv) <= 63)%nat) (an_hashes d)
  | Failure status error =>
      (status = 400%nat
       /\ error = "Password is required"%string
       /\ exists data,
            body = Parsed data
            /\ (truthy data = false
                \/ py_contains (py "password") data = Some false))
      \/ (status = 400%nat
          /\ error = "Password cannot be empty"%string
          /\ exists data v,
               body = Parsed data
               /\ py_subscript (py "password") data = Some v
               /\ truthy v = false)
      \/ (status = 500%nat
          /\ exists message, body = GetJsonRaises message /\ error = message)
      \/ (status = 500%nat
          /\ exists data,
               body = Parsed data
               /\ error = error_text data
               /\ truthy data = true
               /\ (py_contains (py "password") data = None
                   \/ (py_contains (py "password") data = Some true
                       /\ py_subscript (py "password") data = None)
                   \/ exists v,
                        py_subscript (py "password") data = Some v
                        /\ truthy v = true
                        /\ forall text, v <> JStr text))
      \/ (status = 500%nat
          /\ exists data password,
               body = Parsed data
               /\ py_subscript (py "password") data = Some (JStr password)
               /\ password <> []
               /\ ((2 * DBL_OVERFLOW <= total_combinations U password
                    /\ error
                       = "integer division result too large for a float"%string)
                   \/ (total_combinations U password < 2 * DBL_OVERFLOW
                       /\ exists e,
                            get_hash_comparison password = Raise e
                            /\ error = str_of_exn e)))
  end.
Proof.
  unfold analyze_password.
  destruct (with_password_outcome error_text
              (analyze_text U round2 get_hash_comparison) body)
    as [[data [password [B [S [Hne E]]]]]
       | [[E H] | [[E H] | [[message [B E]] | [data [B [E H]]]]]]];
    rewrite E; clear E.
  2: { left. auto. }
  2: { right; left. auto. }
  2: { do 2 right; left. split; [reflexivity |]. exists message. auto. }
  2: { do 3 right; left. split; [reflexivity |]. exists data.
       destruct H as [T H]. auto. }
  unfold analyze_text.
  destruct (Z_lt_le_dec (total_combinations U password) (2 * DBL_OVERFLOW))
    as [Hfit | Hbig].
  - destruct (crack_times_when_fits U password Hfit) as [cts [E M]].
    rewrite E. cbn [bind].
    destruct (get_hash_comparison password) as [hashes | e] eqn:H.
    + cbn [bind]. exists data, password, hashes.
      repeat split; try assumption; cbn [an_crack_times an_suggestions
                                          an_hashes].
      * rewrite map_map. exact M.
      * rewrite map_map. reflexivity.
      * apply Forall_forall. intros kv Hin.
        apply in_map_iff in Hin as [kv' [<- _]]. cbn [snd].
        rewrite truncate_hash_length.
        destruct (Nat.ltb_spec 60 (List.length (snd kv'))); lia.
    + cbn [bind]. do 4 right. split; [reflexivity |].
      exists data, password. repeat split; try assumption.
      right. split; [exact Hfit |]. exists e. auto.
  - rewrite (crack_times_when_overflow U password Hbig). cbn [bind].
    do 4 right. split; [reflexivity |].
    exists data, password. repeat split; try assumption.
    left. split; [exact Hbig | reflexivity].
Qed.

(** ** Generation endpoint *)

Lemma choice_In {A : Type} (default : A) (seq : list A) (r : nat) :
  seq <> [] -> In (choice default seq r) seq.
Proof.
  intros H. unfold choice. apply nth_In.
  apply Nat.mod_upper_bound. destruct seq; [contradiction | discriminate].
Qed.

Lemma existsb_false_iff {A : Type} (f : A -> bool) (l : list A) :
  existsb f l = false <-> forall x, In x l -> f x = false.
Proof.
  induction l as [| a l IH]; simpl.
  - split; [intros _ x [] | reflexivity].
  - rewrite orb_false_iff, IH. split.
    + intros [Ha Hl] x [<- | Hx]; auto.
    + intros H. split; [apply H; now left | intros x Hx; apply H; now right].
Qed.

Lemma existsb_Permutation {A : Type} (f : A -> bool) (l l' : list A) :
  Permutation l l' -> existsb f l = existsb f l'.
Proof.
  intros P. destruct (existsb f l) eqn:E; symmetry.
  - apply existsb_exists in E as [x [Hin Hx]].
    apply existsb_exists. exists x. split; [| exact Hx].
    now apply (Permutation_in _ P).
  - apply existsb_false_iff. intros x Hin.
    rewrite existsb_false_iff in E. apply E.
    now apply (Permutation_in _ (Permutation_sym P)).
Qed.

(** A draw from a pool passes every test that the whole pool passes. *)
Lemma choice_sat (f : codepoint -> bool) (pool : str) (r : nat) :
  (forallb f pool && negb (List.length pool =? 0)%nat)%bool = true ->
  f (choice 0%N pool r) = true.
Proof.
  rewrite andb_true_iff, negb_true_iff, Nat.eqb_neq.
  intros [F Hne]. rewrite forallb_forall in F. apply F.
  apply choice_In. intros ->. now apply Hne.
Qed.

Lemma choice_unsat (f : codepoint -> bool) (pool : str) (r : nat) :
  (forallb (fun c => negb (f c)) pool
   && negb (List.length pool =? 0)%nat)%bool = true ->
  f (choice 0%N pool r) = false.
Proof.
  intros H. apply negb_true_iff.
  exact (choice_sat (fun c => negb (f c)) pool r H).
Qed.

Lemma fill_unsat (f : codepoint -> bool) (pool : str) (g : nat -> nat)
      (l : list nat) :
  (forallb (fun c => negb (f c)) pool
   && negb (List.length pool =? 0)%nat)%bool = true ->
  existsb f (map (fun i => choice 0%N pool (g i)) l) = false.
Proof.
  intros H. apply existsb_false_iff. intros x Hin.
  apply in_map_iff in Hin as [i [<- _]]. now apply choice_unsat.
Qed.

(** Decides one flag of the generated password: [f] is the test of the
    flag. *)
Ltac decide_flag f :=
  rewrite ?existsb_app; cbn [existsb];
  repeat first
    [ rewrite (choice_sat f) by (vm_compute; reflexivity)
    | rewrite (choice_unsat f) by (vm_compute; reflexivity) ];
  try rewrite (fill_unsat f) by (vm_compute; reflexivity);
  reflexivity.


(** X12: what the generator of passwords answers, for every outcome of
    [request.get_json()], whatever the random draws and the shuffle (a
    rearrangement of the characters).  A success means that the body, or the
    empty dict in place of a falsy body, is a dict, that it selects at least
    one character class, and that [range] accepts the remaining length; the
    analyzer then finds in the generated password exactly the selected
    classes, and the password has one character per selected class and the
    remaining length more, which for an integer length is the larger of
    that length and the number of selected classes.  A failure is the 400
    of a dict that selects no class, or a 500: [get_json] raised, or the
    body is truthy and not a dict, or the length is not a number that
    [range] accepts. *)
Theorem generate_password_outcome
        (U : unicode_db) (round2 : R -> R) (rand : nat -> nat)
        (shuffle : str -> str) (error_text : json -> string)
        (body : get_json_t) :
  (forall l, Permutation l (shuffle l)) ->
  match generate_password U round2 rand shuffle error_text body with
  | Success g =>
      exists parsed entries remaining,
        body = Parsed parsed
        /\ (if truthy parsed then parsed else JDict []) = JDict entries
        /\ 0 < char_type_count (requested_classes entries)
        /\ remaining_length
             (json_get_default (py "length") entries (JInt 16))
             (Z.to_nat (char_type_count (requested_classes entries)))
           = Some remaining
        /\ _identify_char_sets U (gn_password g) = requested_classes entries
        /\ List.length (gn_password g)
           = (Z.to_nat (char_type_count (requested_classes entries))
              + remaining)%nat
        /\ (forall n,
              json_get_default (py "length") entries (JInt 16) = JInt n ->
              Z.of_nat (List.length (gn_password g))
              = Z.max n (char_type_count (requested_classes entries)))
        /\ gn_length g = List.length (gn_password g)
        /\ gn_score g = _calculate_strength_score U (gn_password g)
        /\ gn_level g
           = _determine_strength_level
               (_calculate_strength_score U (gn_password g))
  | Failure status error =>
      (status = 400%nat
       /\ error = "At least one character type must be selected"%string
       /\ exists parsed entries,
            body = Parsed parsed
            /\ (if truthy parsed then parsed else JDict []) = JDict entries
            /\ char_type_count (requested_classes entries) = 0)
      \/ (status = 500%nat
          /\ exists message, body = GetJsonRaises message /\ error = message)
      \/ (status = 500%nat
          /\ exists parsed,
               body = Parsed parsed /\ error = error_text parsed
               /\ truthy parsed = true
               /\ forall entries, parsed <> JDict entries)
      \/ (status = 500%nat
          /\ exists parsed entries,
               body = Parsed parsed /\ error = error_text parsed
               /\ (if truthy parsed then parsed else JDict [])
                  = JDict entries
               /\ 0 < char_type_count (requested_classes entries)
               /\ remaining_length
                    (json_get_default (py "length") entries (JInt 16))
                    (Z.to_nat (char_type_count (requested_classes entries)))
                  = None)
  end.
Proof.
  intros Hperm. unfold generate_password.
  destruct body as [parsed | message];
    [| right; left; split; [reflexivity | now exists message]].
  destruct (if truthy parsed then parsed else JDict [])
    as [| b | n | f | s | items | entries] eqn:Hdata;
    try (right; right; left; split; [reflexivity |]; exists parsed;
         destruct (truthy parsed); [| discriminate Hdata]; subst parsed;
         repeat split; intros entries; discriminate).
  cbv zeta.
  assert (Hflags :
            requested_classes entries
            = {| lowercase :=
                   truthy (json_get_default (py "include_lowercase") entries
                             (JBool true));
                 uppercase :=
                   truthy (json_get_default (py "include_uppercase") entries
                             (JBool true));
                 digits :=
                   truthy (json_get_default (py "include_digits") entries
                             (JBool true));
                 special :=
                   truthy (json_get_default (py "include_special") entries
                             (JBool true)) |}) by reflexivity.
  remember (json_get_default (py "length") entries (JInt 16)) as length
    eqn:Hlength.
  revert Hflags.
  generalize
    (truthy (json_get_default (py "include_lowercase") entries (JBool true))),
    (truthy (json_get_default (py "include_uppercase") entries (JBool true))),
    (truthy (json_get_default (py "include_digits") entries (JBool true))),
    (truthy (json_get_default (py "include_special") entries (JBool true))).
  intros bl bu bd bs Hflags.
  destruct bl, bu, bd, bs; cbv iota beta;
    match goal with
    | |- context [(List.length ?chars =? 0)%nat] =>
        let b := eval vm_compute in (List.length chars =? 0)%nat in
        change (List.length chars =? 0)%nat with b
    end; cbv iota;
    try (left; split; [reflexivity |]; split; [reflexivity |];
         exists parsed, entries; rewrite Hflags; repeat split;
         (assumption || reflexivity)).
  all: rewrite ?app_nil_l; rewrite ?length_app; cbn [List.length Nat.add].
  all: match goal with
       | |- context [remaining_length ?l ?k] =>
           destruct (remaining_length l k) as [remaining |] eqn:Hrem
       end;
    [| right; right; right; split; [reflexivity |];
       exists parsed, entries; rewrite Hflags, <- Hlength; repeat split;
       (assumption || reflexivity)].
  all: exists parsed, entries, remaining; rewrite Hflags, <- Hlength;
    cbn [gn_password gn_length gn_score gn_level].
  all: split; [reflexivity |]; split; [assumption |];
    split; [reflexivity |]; split; [exact Hrem |].
  all: assert (Hlen :
                 forall (prefix : str) (pool : str) (g : nat -> nat),
                   List.length
                     (shuffle
                        (prefix
                         ++ map (fun i => choice 0%N pool (g i))
                              (seq 0 remaining)))
                   = (List.length prefix + remaining)%nat)
    by (intros prefix pool g;
        rewrite <- (Permutation_length (Hperm _));
        rewrite length_app, length_map, length_seq; reflexivity).
  all: split;
    [ unfold _identify_char_sets, search_class;
      rewrite <- !(existsb_Permutation _ _ _ (Hperm _));
      f_equal;
      [ decide_flag (in_range 97 122) | decide_flag (in_range 65 90)
      | decide_flag (is_digit U) | decide_flag is_special ]
    | split; [rewrite Hlen, ?length_app; reflexivity |];
      split; [| repeat split];
      intros n Hn; rewrite Hlen; rewrite Hn in Hrem;
      cbn [remaining_length] in Hrem; injection Hrem as <-;
      rewrite ?length_app; cbn [List.length];
      match goal with
      | |- context [char_type_count ?flags] =>
          let k := eval vm_compute in (char_type_count flags) in
          change (char_type_count flags) with k
      end; lia ].
Qed.

Lemma generate_password_outcome_witness :
  (forall l : str, Permutation l ((fun l => l) l))
  /\ exists g,
       generate_password ascii_db (fun x => x) (fun i => (7 * i + 3)%nat)
         (fun l => l) (fun _ => "TypeError"%string)
         (Parsed
            (JDict [(py "length", JInt 2);
                    (py "include_uppercase", JInt 1);
                    (py "include_digits", JStr [])]))
       = Success g
       /\ gn_length g = 3%nat
       /\ _identify_char_sets ascii_db (gn_password g)
          = {| lowercase := true; uppercase := true; digits := false;
               special := true |}.
Proof.
  split; [intros l; apply Permutation_refl |].
  pose proof
    (generate_password_outcome ascii_db (fun x => x)
       (fun i => (7 * i + 3)%nat) (fun l => l)
       (fun _ => "TypeError"%string)
       (Parsed
          (JDict [(py "length", JInt 2);
                  (py "include_uppercase", JInt 1);
                  (py "include_digits", JStr [])]))
       (fun l => Permutation_refl l)) as H.
  destruct (generate_password _ _ _ _ _ _) as [g | status error] eqn:E.
  - exists g. split; [reflexivity |].
    destruct H as [parsed [entries [remaining H]]].
    destruct H as [Hb [Hd [_ [Hr [Hs [Hl [_ [Hg _]]]]]]]].
    injection Hb as <-. cbn in Hd. injection Hd as <-.
    vm_compute in Hr. injection Hr as <-.
    split.
    + rewrite Hg, Hl. reflexivity.
    + rewrite Hs. reflexivity.
  - discriminate E.
Defined.

(** ** Improvement endpoint *)

Lemma insert_by_score_length (x : improvement_t) (l : list improvement_t) :
  List.length (insert_by_score x l) = S (List.length l).
Proof.
  induction l as [| y l IH]; [reflexivity |].
  simpl. destruct (Qlt_bool (im_score x) (im_score y)); simpl; congruence.
Qed.

Lemma sort_by_score_desc_length (l : list improvement_t) :
  List.length (sort_by_score_desc l) = List.length l.
Proof.
  induction l as [| x l IH]; [reflexivity |].
  simpl. now rewrite insert_by_score_length, IH.
Qed.

Lemma insert_by_score_In (z x : improvement_t) (l : list improvement_t) :
  In z (insert_by_score x l) <-> z = x \/ In z l.
Proof.
  induction l as [| y l IH]; simpl; [intuition congruence |].
  destruct (Qlt_bool (im_score x) (im_score y)); simpl;
    [rewrite IH |]; intuition congruence.
Qed.

Lemma sort_by_score_desc_In (z : improvement_t) (l : list improvement_t) :
  In z (sort_by_score_desc l) <-> In z l.
Proof.
  induction l as [| x l IH]; simpl; [tauto |].
  rewrite insert_by_score_In, IH. intuition congruence.
Qed.

Lemma insert_by_score_Sorted (x : improvement_t) (l : list improvement_t) :
  Sorted score_ge l -> Sorted score_ge (insert_by_score x l).
Proof.
  induction l as [| y l IH]; intros S; simpl.
  - repeat constructor.
  - destruct (Qlt_bool (im_score x) (im_score y)) eqn:E.
    + apply Sorted_inv in S as [S H]. constructor; [now apply IH |].
      apply Qlt_bool_true in E.
      destruct l as [| z l]; simpl.
      * constructor. unfold score_ge. now apply Qlt_le_weak.
      * destruct (Qlt_bool (im_score x) (im_score z)).
        -- constructor. now inversion H.
        -- constructor. unfold score_ge. now apply Qlt_le_weak.
    + apply Qlt_bool_false in E. constructor; [exact S |].
      constructor. exact E.
Qed.

Lemma sort_by_score_desc_Sorted (l : list improvement_t) :
  Sorted score_ge (sort_by_score_desc l).
Proof.
  induction l as [| x l IH]; simpl; [constructor |].
  now apply insert_by_score_Sorted.
Qed.

Lemma Sorted_firstn {A : Type} (R : A -> A -> Prop) (n : nat) (l : list A) :
  Sorted R l -> Sorted R (firstn n l).
Proof.
  revert l. induction n as [| n IH]; intros l S; [constructor |].
  destruct l as [| x l]; [constructor |].
  apply Sorted_inv in S as [S H]. simpl. constructor; [now apply IH |].
  destruct l as [| y l]; [destruct n; constructor |].
  destruct n; [constructor |]. simpl. constructor. now inversion H.
Qed.

Lemma In_firstn {A : Type} (n : nat) (l : list A) (x : A) :
  In x (firstn n l) -> In x l.
Proof.
  intros H. rewrite <- (firstn_skipn n l). apply in_or_app. now left.
Qed.

(** Some strategy always applies: the first below 16 characters, the last
    from 4 characters on. *)
Lemma improvement_candidates_count
      (U : unicode_db) (rand : nat -> nat) (uni_upper : codepoint -> str)
      (original : str) :
  (1 <= List.length (improvement_candidates U rand uni_upper original) <= 6)%nat.
Proof.
  unfold improvement_candidates. cbv zeta.
  destruct (Nat.ltb_spec (List.length original) 16);
    destruct (Nat.ltb_spec 3 (List.length original));
    repeat match goal with
           | |- context [if negb ?b then _ else _] =>
               destruct b; cbn [negb]
           end;
    rewrite ?length_app; cbn [List.length]; lia.
Qed.

(** X13: the answers of the improvement endpoint, for every outcome of
    [request.get_json()] and of the random draws.  When the body is an
    object whose password is a non-empty string, it answers 200 with that
    string and between one and five variations, ordered so that no score is
    below the next one; the score, level and length shown with a variation
    are those the analyzer gives to the password of the variation.  It
    answers 400 when the parsed body is false or lacks the key and when the
    password itself is false, and 500 for a body that [get_json] refuses and
    for a body or a password of another type. *)
Theorem improve_password_outcome
        (U : unicode_db) (rand : nat -> nat) (uni_upper : codepoint -> str)
        (error_text : json -> string) (body : get_json_t) :
  match improve_password U rand uni_upper error_text body with
  | Success r =>
      exists data original,
        body = Parsed data
        /\ py_subscript (py "password") data = Some (JStr original)
        /\ original <> []
        /\ ip_original r = original
        /\ (1 <= List.length (ip_improvements r) <= 5)%nat
        /\ Sorted score_ge (ip_improvements r)
        /\ Forall
             (fun i =>
                im_score i = _calculate_strength_score U (im_password i)
                /\ im_level i = _determine_strength_level (im_score i)
                /\ im_length i = List.length (im_password i))
             (ip_improvements r)
  | Failure status error =>
      (status = 400%nat
       /\ error = "Password is required"%string
       /\ exists data,
            body = Parsed data
            /\ (truthy data = false
                \/ py_contains (py "password") data = Some false))
      \/ (status = 400%nat
          /\ error = "Password cannot be empty"%string
          /\ exists data v,
               body = Parsed data
               /\ py_subscript (py "password") data = Some v
               /\ truthy v = false)
      \/ (status = 500%nat
          /\ exists message, body = GetJsonRaises message /\ error = message)
      \/ (status = 500%nat
          /\ exists data,
               body = Parsed data
               /\ error = error_text data
               /\ truthy data = true
               /\ (py_contains (py "password") data = None
                   \/ (py_contains (py "password") data = Some true
                       /\ py_subscript (py "password") data = None)
                   \/ exists v,
                        py_subscript (py "password") data = Some v
                        /\ truthy v = true
                        /\ forall text, v <> JStr text))
  end.
Proof.
  unfold improve_password.
  destruct (with_password_outcome error_text
              (improve_text U rand uni_upper) body)
    as [[data [original [B [S [Hne E]]]]]
       | [[E H] | [[E H] | [[message [B E]] | [data [B [E H]]]]]]];
    rewrite E; clear E.
  2: { left. auto. }
  2: { right; left. auto. }
  2: { do 2 right; left. split; [reflexivity |]. exists message. auto. }
  2: { do 3 right. split; [reflexivity |]. exists data.
       destruct H as [T H]. auto. }
  unfold improve_text. cbv zeta.
  exists data, original. cbn [ip_original ip_improvements].
  split; [exact B |]. split; [exact S |]. split; [exact Hne |].
  split; [reflexivity |].
  pose proof (improvement_candidates_count U rand uni_upper original) as C.
  split; [| split].
  - rewrite length_firstn, sort_by_score_desc_length, length_map. lia.
  - apply Sorted_firstn, sort_by_score_desc_Sorted.
  - apply Forall_forall. intros i Hin.
    apply In_firstn in Hin.
    apply (proj1 (sort_by_score_desc_In _ _)) in Hin.
    apply in_map_iff in Hin as [[[pw st] de] [<- _]].
    cbn. auto.
Qed.

(** *** The letter substitution *)

Lemma replace_first_length (old new : codepoint) (s : str) :
  List.length (replace_first old new s) = List.length s.
Proof.
  induction s as [| c s IH]; [reflexivity |].
  simpl. destruct (N.eqb c old); simpl; congruence.
Qed.

Lemma replace_first_absent (old new : codepoint) (s : str) :
  ~ In old s -> replace_first old new s = s.
Proof.
  induction s as [| c s IH]; [reflexivity |].
  simpl. intros H. destruct (N.eqb_spec c old) as [-> | _].
  - exfalso. apply H. now left.
  - f_equal. apply IH. intros Hin. apply H. now right.
Qed.

Lemma replace_first_count_old (old new : codepoint) (s : str) :
  old <> new ->
  count_occ N.eq_dec (replace_first old new s) old
  = pred (count_occ N.eq_dec s old).
Proof.
  intros Hne. induction s as [| c s IH]; [reflexivity |].
  simpl. destruct (N.eqb_spec c old) as [-> | Hc].
  - simpl. destruct (N.eq_dec new old); [congruence |].
    destruct (N.eq_dec old old); [reflexivity | congruence].
  - simpl. destruct (N.eq_dec c old); [congruence | exact IH].
Qed.

Lemma replace_first_count_other (old new c : codepoint) (s : str) :
  c <> old -> c <> new ->
  count_occ N.eq_dec (replace_first old new s) c = count_occ N.eq_dec s c.
Proof.
  intros Ho Hn. induction s as [| x s IH]; [reflexivity |].
  simpl. destruct (N.eqb_spec x old) as [-> | Hx].
  - simpl. destruct (N.eq_dec new c); [congruence |].
    destruct (N.eq_dec old c); [congruence | reflexivity].
  - simpl. destruct (N.eq_dec x c); [now rewrite IH | exact IH].
Qed.

(** X14: the letter substitution of the fourth strategy keeps the length
    of the password and removes exactly one occurrence of each of the letters
    a, e, i, o, s and t that the password holds; it returns the password
    unchanged exactly when the password holds none of these letters. *)
Theorem leetspeak_effect (original : str) :
  List.length (leetspeak original) = List.length original
  /\ Forall
       (fun letter =>
          count_occ N.eq_dec (leetspeak original) letter
          = pred (count_occ N.eq_dec original letter))
       (map fst leet_map)
  /\ (leetspeak original = original
      <-> Forall (fun letter => ~ In letter original) (map fst leet_map)).
Proof.
  assert (C : Forall
                (fun letter =>
                   count_occ N.eq_dec (leetspeak original) letter
                   = pred (count_occ N.eq_dec original letter))
                (map fst leet_map)).
  { unfold leetspeak, leet_map. cbn [fold_left map fst snd].
    repeat constructor;
      repeat first
        [ rewrite replace_first_count_old by (intros E; discriminate E)
        | rewrite replace_first_count_other
            by (intros E; discriminate E) ];
      reflexivity. }
  split; [| split; [exact C |]].
  - unfold leetspeak, leet_map. cbn [fold_left fst snd].
    now rewrite !replace_first_length.
  - split.
    + intros E. rewrite E in C.
      eapply Forall_impl; [| exact C]. cbn beta. intros letter H Hin.
      apply (count_occ_In N.eq_dec) in Hin. lia.
    + intros H. unfold leetspeak, leet_map in *.
      cbn [fold_left map fst snd] in *.
      repeat match goal with
             | H : Forall _ (_ :: _) |- _ => inversion H; subst; clear H
             end.
      repeat match goal with
             | H : ~ In ?k original
               |- context [replace_first ?k ?n original] =>
                 rewrite (replace_first_absent k n original H)
             end.
      reflexivity.
Qed.
